(** * CommunityHub: authorization, RSVP and envelope properties

    A shallow embedding of the backend middleware
    ([backend/src/middleware/auth.ts], the [authenticateUser] /
    [requireAdmin] variant), the response helpers
    ([utils/response-handler.ts], [utils/error-handler.ts]), the event and
    resident controllers, and the client [AuthProvider] session bridge.

    Express middleware is modelled by explicit state passing: a middleware
    maps a request to an [Outcome] (either it calls [next()] on the possibly
    mutated request, or it sends a response); a controller maps the
    Firestore state and a request to the new state and the response sent. *)

From Stdlib Require Import Ascii String.
From stdpp Require Import gmap strings list.

Set Warnings "-register-all".

Local Open Scope string_scope.
Local Open Scope Z_scope.

(* ===================================================================== *)
(** ** JavaScript values *)
(* ===================================================================== *)

Module Js.

(** The JSON-like values that flow through request bodies, Firestore
    documents and response bodies.  Numbers are restricted to integers. *)
Inductive jsval : Type :=
| JUndefined
| JNull
| JBool (b : bool)
| JNum (n : Z)
| JStr (s : string)
| JArr (l : list jsval)
| JObj (o : list (string * jsval)).

(** JavaScript truthiness, as used by [if (x)], [x || d] and [!x]. *)
Definition truthy (v : jsval) : bool :=
  match v with
  | JUndefined | JNull => false
  | JBool b => b
  | JNum n => negb (n =? 0)
  | JStr s => negb (String.eqb s "")
  | JArr _ | JObj _ => true
  end.

(** Reading a property of an object: a missing key reads as [undefined]. *)
Definition prop (o : gmap string jsval) (k : string) : jsval :=
  default JUndefined (o !! k).

(** [a || b]. *)
Definition or_else (a b : jsval) : jsval := if truthy a then a else b.

(** [s.startsWith(p)]. *)
Definition startsWith (s p : string) : bool := String.prefix p s.

(** [s.split(c)] for a one-character separator. *)
Fixpoint split (c : ascii) (s : string) : list string :=
  match s with
  | EmptyString => [EmptyString]
  | String a s' =>
      if Ascii.eqb a c then EmptyString :: split c s'
      else match split c s' with
           | [] => [String a EmptyString]
           | w :: ws => String a w :: ws
           end
  end.

End Js.
Export Js.

(* ===================================================================== *)
(** ** HTTP requests, responses and the middleware outcome *)
(* ===================================================================== *)

Module Http.

(** [req.user], as declared by the middleware's extension of
    [Express.Request]. *)
Record ReqUser : Type := mkReqUser {
  uid : string;
  email : option string;
  role : option string
}.

(** The parts of an Express request the modelled code reads. *)
Record Request : Type := mkRequest {
  authorization : option string;     (* req.headers.authorization *)
  params_id : string;                (* req.params.id *)
  body : gmap string jsval;          (* req.body *)
  user : option ReqUser              (* req.user *)
}.

Definition set_user (req : Request) (u : ReqUser) : Request :=
  {| authorization := authorization req;
     params_id := params_id req;
     body := body req;
     user := Some u |}.

(** [res.status(code).json(payload)]. *)
Record Response : Type := mkResponse {
  status : Z;
  json : gmap string jsval
}.

(** What a middleware does with a request: call [next()] (the request may
    have been given a [user]) or send a response and stop. *)
Inductive Outcome : Type :=
| Next (req : Request)
| Send (res : Response).

(** The process environment and the clock.  [isoNow k] is the string
    returned by the [k]-th evaluation of [new Date().toISOString()]
    while the request is served. *)
Record Env : Type := mkEnv {
  NODE_ENV : option string;
  isoNow : nat -> string
}.

(** The identity provider's [auth.verifyIdToken]: it either resolves to
    the decoded token or rejects with a provider error. *)
Record DecodedToken : Type := mkDecoded {
  d_uid : string;
  d_email : option string;
  d_role : option string             (* the custom claim [role] *)
}.

Record ProviderError : Type := mkProviderError {
  err_code : string;
  err_message : string
}.

Definition Provider : Type := string -> ProviderError + DecodedToken.

End Http.
Export Http.

(* ===================================================================== *)
(** ** utils/response-handler.ts and utils/error-handler.ts *)
(* ===================================================================== *)

Module ResponseHandler.

(** A default parameter replaces an [undefined] argument. *)
Definition default_null (v : jsval) : jsval :=
  match v with JUndefined => JNull | _ => v end.

(** [successResponse(res, statusCode = 200, message = 'Success', data = null)].
    The clock is read once, at index [k]. *)
Definition successResponse (env : Env) (k : nat)
    (statusCode : Z) (message : string) (data : jsval) : Response :=
  {| status := statusCode;
     json := <["success" := JBool true]>
             (<["message" := JStr message]>
             (<["data" := default_null data]>
             (<["timestamp" := JStr (isoNow env k)]> ∅))) |}.

(** [errorResponse(res, statusCode = 500, message = 'Internal Server Error',
    error = null)]. *)
Definition errorResponse (env : Env) (k : nat)
    (statusCode : Z) (message : string) (error : jsval) : Response :=
  {| status := statusCode;
     json := <["success" := JBool false]>
             (<["message" := JStr message]>
             (<["error" := default_null error]>
             (<["timestamp" := JStr (isoNow env k)]> ∅))) |}.

End ResponseHandler.

Module ErrorHandler.

(** [errorResponse] of utils/error-handler.ts: the details go under the
    key [errors]. *)
Definition errorResponse (env : Env) (k : nat)
    (statusCode : Z) (message : string) (errors : jsval) : Response :=
  {| status := statusCode;
     json := <["success" := JBool false]>
             (<["message" := JStr message]>
             (<["errors" := ResponseHandler.default_null errors]>
             (<["timestamp" := JStr (isoNow env k)]> ∅))) |}.

End ErrorHandler.

(* ===================================================================== *)
(** ** middleware/auth.ts: verifyAuth and verifyAdmin *)
(* ===================================================================== *)

Module Auth.

(** The object literal [{ success: false, message }] the middleware sends. *)
Definition deny (code : Z) (message : string) : Response :=
  {| status := code;
     json := <["success" := JBool false]> (<["message" := JStr message]> ∅) |}.

(** [authHeader.split(' ')[1]]; [None] stands for [undefined]. *)
Definition bearer_token (authHeader : string) : option string :=
  split " "%char authHeader !! 1%nat.

(** [!authHeader || !authHeader.startsWith('Bearer ')]. *)
Definition no_bearer (h : option string) : bool :=
  match h with
  | None => true
  | Some a => String.eqb a "" || negb (startsWith a "Bearer ")
  end.

Definition mock_user : ReqUser :=
  {| uid := "dev-user-123"; email := Some "dev@example.com"; role := Some "admin" |}.

(** [decodedToken.role || dflt]. *)
Definition role_or (claim : option string) (dflt : string) : string :=
  match claim with
  | Some r => if String.eqb r "" then dflt else r
  | None => dflt
  end.

(** [process.env.NODE_ENV === 'development' && token.startsWith('simulated_token_')]. *)
Definition dev_bypass (env : Env) (token : string) : bool :=
  match NODE_ENV env with
  | Some m => String.eqb m "development" && startsWith token "simulated_token_"
  | None => false
  end.

(** [verifyAuth].  Nothing in the outer [try] can throw on a string
    header, so the 500 branch has no model counterpart; an [undefined]
    token (never produced after the [Bearer ] test) would make the inner
    [try] throw and is sent the same 403. *)
Definition verifyAuth (env : Env) (verifyIdToken : Provider) (req : Request) : Outcome :=
  if no_bearer (authorization req) then
    Send (deny 401 "Access denied. No token provided.")
  else
    match bearer_token (default "" (authorization req)) with
    | None => Send (deny 403 "Invalid token.")
    | Some token =>
        if dev_bypass env token then Next (set_user req mock_user)
        else
          match verifyIdToken token with
          | inr decodedToken =>
              Next (set_user req
                      {| uid := d_uid decodedToken;
                         email := d_email decodedToken;
                         role := Some (role_or (d_role decodedToken) "user") |})
          | inl _ => Send (deny 403 "Invalid token.")
          end
    end.

(** [req.user.role !== 'admin']. *)
Definition not_admin (u : ReqUser) : bool :=
  match role u with
  | Some r => negb (String.eqb r "admin")
  | None => true
  end.

(** [verifyAdmin]. *)
Definition verifyAdmin (req : Request) : Outcome :=
  match user req with
  | None => Send (deny 401 "Access denied. Authentication required.")
  | Some u =>
      if not_admin u then Send (deny 403 "Access denied. Admin privileges required.")
      else Next req
  end.

End Auth.

(* ===================================================================== *)
(** ** The second middleware variant: authenticateUser and requireAdmin *)
(* ===================================================================== *)

Module AuthMiddleware.

Import Auth.

(** [authenticateUser]: no development bypass, default role [resident]. *)
Definition authenticateUser (verifyIdToken : Provider) (req : Request) : Outcome :=
  if no_bearer (authorization req) then
    Send (deny 401 "Access denied. No token provided.")
  else
    match bearer_token (default "" (authorization req)) with
    | None => Send (deny 403 "Invalid or expired token")
    | Some token =>
        match verifyIdToken token with
        | inr decodedToken =>
            Next (set_user req
                    {| uid := d_uid decodedToken;
                       email := d_email decodedToken;
                       role := Some (role_or (d_role decodedToken) "resident") |})
        | inl _ => Send (deny 403 "Invalid or expired token")
        end
    end.

(** [req.user.role !== 'admin' && req.user.role !== 'super_admin']. *)
Definition not_admin_or_super (u : ReqUser) : bool :=
  match role u with
  | Some r => negb (String.eqb r "admin") && negb (String.eqb r "super_admin")
  | None => true
  end.

(** [requireAdmin]. *)
Definition requireAdmin (req : Request) : Outcome :=
  match user req with
  | None => Send (deny 401 "Authentication required")
  | Some u =>
      if not_admin_or_super u then Send (deny 403 "Admin privileges required")
      else Next req
  end.

End AuthMiddleware.

(* ===================================================================== *)
(** ** The Firestore collections *)
(* ===================================================================== *)

Module Firestore.

(** A document of the [events] collection, after the controller's
    [interface Event] (the id is the document key). *)
Record Event : Type := mkEvent {
  title : string;
  description : string;
  date : string;
  endDate : option string;
  location : string;
  maxAttendees : option Z;
  image : option string;
  isPublic : bool;
  attendees : option (list string);
  createdBy : string;
  createdAt : string;
  updatedAt : string
}.

(** The database: user records are untyped documents keyed by identity id;
    events are keyed by event id. *)
Record Db : Type := mkDb {
  users : gmap string (gmap string jsval);
  events : gmap string Event
}.

(** The event document with the two fields of
    [{ attendees, updatedAt }] written over it. *)
Definition set_attendees (ev : Event) (attendees' : list string)
    (updatedAt' : string) : Event :=
  {| title := title ev;
     description := description ev;
     date := date ev;
     endDate := endDate ev;
     location := location ev;
     maxAttendees := maxAttendees ev;
     image := image ev;
     isPublic := isPublic ev;
     attendees := Some attendees';
     createdBy := createdBy ev;
     createdAt := createdAt ev;
     updatedAt := updatedAt' |}.

(** [db.collection('events').doc(id).update({ attendees, updatedAt })].
    [update] rejects when the document does not exist ([None]). *)
Definition events_update (db : Db) (id : string)
    (attendees' : list string) (updatedAt' : string) : option Db :=
  match events db !! id with
  | None => None
  | Some ev =>
      Some {| users := users db;
              events := <[id := set_attendees ev attendees' updatedAt']> (events db) |}
  end.

(** [db.collection('users').doc(id).update(updateData)]: the given fields
    are written over the stored document, the others are kept. *)
Definition users_update (db : Db) (id : string)
    (updateData : gmap string jsval) : option Db :=
  match users db !! id with
  | None => None
  | Some doc =>
      Some {| users := <[id := updateData ∪ doc]> (users db);
              events := events db |}
  end.

End Firestore.
Export Firestore.

(* ===================================================================== *)
(** ** controllers/eventController.ts: rsvpToEvent and cancelRsvp *)
(* ===================================================================== *)

Module EventController.

Import ResponseHandler.

(** The message of the [TypeError] raised by [req.user!.uid] when no
    middleware attached a user. *)
Definition no_user_message : string :=
  "Cannot read properties of undefined (reading 'uid')".

(** The message of the error with which [update] rejects. *)
Definition not_found_message : string := "NOT_FOUND".

(** [attendees.includes(userId)]. *)
Definition includes (l : list string) (x : string) : bool :=
  bool_decide (x ∈ l).

(** [eventData?.maxAttendees && attendees.length >= eventData.maxAttendees]. *)
Definition max_reached (eventData : Event) (l : list string) : bool :=
  match maxAttendees eventData with
  | Some n => negb (n =? 0) && (n <=? Z.of_nat (length l))
  | None => false
  end.

(** [rsvpToEvent]. *)
Definition rsvpToEvent (env : Env) (db : Db) (req : Request) : Db * Response :=
  match user req with
  | None => (db, errorResponse env 0 500 "Error RSVP'ing to event" (JStr no_user_message))
  | Some u =>
      let eventId := params_id req in
      let userId := uid u in
      match events db !! eventId with
      | None => (db, errorResponse env 0 404 "Event not found" JNull)
      | Some eventData =>
          let l := default [] (attendees eventData) in
          if includes l userId then
            (db, errorResponse env 0 400 "You have already RSVP'd to this event" JNull)
          else if max_reached eventData l then
            (db, errorResponse env 0 400 "Event has reached maximum attendees" JNull)
          else
            match events_update db eventId (l ++ [userId]) (isoNow env 0) with
            | Some db' => (db', successResponse env 1 200 "RSVP successful" JNull)
            | None => (db, errorResponse env 1 500 "Error RSVP'ing to event"
                                         (JStr not_found_message))
            end
      end
  end.

(** [cancelRsvp]. *)
Definition cancelRsvp (env : Env) (db : Db) (req : Request) : Db * Response :=
  match user req with
  | None => (db, errorResponse env 0 500 "Error canceling RSVP" (JStr no_user_message))
  | Some u =>
      let eventId := params_id req in
      let userId := uid u in
      match events db !! eventId with
      | None => (db, errorResponse env 0 404 "Event not found" JNull)
      | Some eventData =>
          let l := default [] (attendees eventData) in
          if negb (includes l userId) then
            (db, errorResponse env 0 400 "You have not RSVP'd to this event" JNull)
          else
            match events_update db eventId
                    (filter (λ id, id ≠ userId) l) (isoNow env 0) with
            | Some db' => (db', successResponse env 1 200 "RSVP canceled successfully" JNull)
            | None => (db, errorResponse env 1 500 "Error canceling RSVP"
                                         (JStr not_found_message))
            end
      end
  end.

End EventController.

(* ===================================================================== *)
(** ** controllers/residentController.ts: updateResident *)
(* ===================================================================== *)

Module ResidentController.

Import ResponseHandler.

Definition no_user_message : string :=
  "Cannot read properties of undefined (reading 'role')".

Definition not_found_message : string := "NOT_FOUND".

(** [req.user!.role === 'admin']. *)
Definition is_admin (u : ReqUser) : bool :=
  match role u with
  | Some r => String.eqb r "admin"
  | None => false
  end.

(** [if (v) updateData[k] = v]. *)
Definition set_if (k : string) (v : jsval) (updateData : gmap string jsval)
    : gmap string jsval :=
  if truthy v then <[k := v]> updateData else updateData.

(** The [updateData] object built by [updateResident]. *)
Definition updateData_of (env : Env) (u : ReqUser) (b : gmap string jsval)
    : gmap string jsval :=
  let d0 : gmap string jsval := {[ "updatedAt" := JStr (isoNow env 0) ]} in
  let d1 := set_if "displayName" (prop b "name") d0 in
  let d2 := set_if "phoneNumber" (prop b "phoneNumber") d1 in
  if is_admin u then
    set_if "blockNumber" (prop b "blockNumber")
      (set_if "flatNumber" (prop b "flatNumber") d2)
  else d2.

(** [updateResident]. *)
Definition updateResident (env : Env) (db : Db) (req : Request) : Db * Response :=
  match user req with
  | None => (db, errorResponse env 0 500 "Error updating resident" (JStr no_user_message))
  | Some u =>
      let residentId := params_id req in
      if negb (is_admin u) && negb (String.eqb (uid u) residentId) then
        (db, errorResponse env 0 403 "Not authorized to update this resident profile" JNull)
      else
        match users db !! residentId with
        | None => (db, errorResponse env 0 404 "Resident not found" JNull)
        | Some _ =>
            match users_update db residentId (updateData_of env u (body req)) with
            | Some db' => (db', successResponse env 1 200 "Resident updated successfully" JNull)
            | None => (db, errorResponse env 1 500 "Error updating resident"
                                         (JStr not_found_message))
            end
        end
  end.

End ResidentController.

(* ===================================================================== *)
(** ** The client session bridge: AuthProvider *)
(* ===================================================================== *)

Module AuthContext.

(** The identity provider's user object, as read by the bridge. *)
Record FirebaseUser : Type := mkFirebaseUser {
  fb_uid : string;
  fb_email : option string;
  fb_displayName : option string;
  fb_photoURL : option string;
  fb_phoneNumber : option string
}.

(** The React state of [AuthProvider], with the two places where the
    bearer token is kept.  [currentUser] is the object exposed to the UI. *)
Record State : Type := mkState {
  currentUser : option (gmap string jsval);
  firebaseUser : option FirebaseUser;
  loading : bool;
  tokenLoading : bool;
  authToken : option string;            (* localStorage 'authToken' *)
  authorizationHeader : option string   (* axios default Authorization *)
}.

(** [useState(null)], [useState(null)], [useState(true)], [useState(false)]. *)
Definition initial : State :=
  {| currentUser := None; firebaseUser := None; loading := true;
     tokenLoading := false; authToken := None; authorizationHeader := None |}.

Definition Action : Type := State -> State.

Definition setCurrentUser (f : option (gmap string jsval) -> option (gmap string jsval))
    : Action := λ s,
  {| currentUser := f (currentUser s); firebaseUser := firebaseUser s;
     loading := loading s; tokenLoading := tokenLoading s;
     authToken := authToken s; authorizationHeader := authorizationHeader s |}.

Definition setFirebaseUser (u : option FirebaseUser) : Action := λ s,
  {| currentUser := currentUser s; firebaseUser := u;
     loading := loading s; tokenLoading := tokenLoading s;
     authToken := authToken s; authorizationHeader := authorizationHeader s |}.

Definition setLoading (b : bool) : Action := λ s,
  {| currentUser := currentUser s; firebaseUser := firebaseUser s;
     loading := b; tokenLoading := tokenLoading s;
     authToken := authToken s; authorizationHeader := authorizationHeader s |}.

Definition setTokenLoading (b : bool) : Action := λ s,
  {| currentUser := currentUser s; firebaseUser := firebaseUser s;
     loading := loading s; tokenLoading := b;
     authToken := authToken s; authorizationHeader := authorizationHeader s |}.

(** [localStorage.setItem('authToken', idToken)] and the axios default
    header [`Bearer ${idToken}`]. *)
Definition storeToken (idToken : string) : Action := λ s,
  {| currentUser := currentUser s; firebaseUser := firebaseUser s;
     loading := loading s; tokenLoading := tokenLoading s;
     authToken := Some idToken;
     authorizationHeader := Some ("Bearer " ++ idToken) |}.

(** [localStorage.removeItem('authToken')] and the deletion of the header. *)
Definition removeToken : Action := λ s,
  {| currentUser := currentUser s; firebaseUser := firebaseUser s;
     loading := loading s; tokenLoading := tokenLoading s;
     authToken := None; authorizationHeader := None |}.

(** [x || ''] and [x || undefined] on a nullable string. *)
Definition or_empty (x : option string) : jsval := JStr (default "" x).

Definition or_undefined (x : option string) : jsval :=
  match x with
  | Some s => if String.eqb s "" then JUndefined else JStr s
  | None => JUndefined
  end.

(** The user object set "from Firebase user initially". *)
Definition default_user (user : FirebaseUser) : gmap string jsval :=
  <["id" := JStr (fb_uid user)]>
  (<["email" := or_empty (fb_email user)]>
  (<["name" := or_empty (fb_displayName user)]>
  (<["photoURL" := or_undefined (fb_photoURL user)]>
  (<["phoneNumber" := or_undefined (fb_phoneNumber user)]>
  (<["role" := JStr "resident"]> ∅))))).

(** [prev => ({ ...prev!, role: userData.role || 'resident', ...userData })]. *)
Definition merge (userData : gmap string jsval)
    (prev : option (gmap string jsval)) : option (gmap string jsval) :=
  Some (userData ∪
        <["role" := or_else (prop userData "role") (JStr "resident")]>
          (default ∅ prev)).

(** What [axios.get(`${API_URL}/auth/me`)] gives: it rejects, or resolves
    to a body whose [success] is falsy, or to a body with the user data. *)
Inductive MeResult : Type :=
| MeRejected
| MeNoSuccess
| MeSuccess (userData : gmap string jsval).

(** [fetchBackendUserData] up to the point where the call to [/auth/me]
    is awaited, for a token the provider handed out. *)
Definition fetch_until_me (user : FirebaseUser) (idToken : string) : list Action :=
  [ setTokenLoading true;
    storeToken idToken;
    setCurrentUser (λ _, Some (default_user user)) ].

(** [fetchBackendUserData] from the answer of [/auth/me] to its end. *)
Definition fetch_after_me (me : MeResult) : list Action :=
  (match me with
   | MeSuccess userData => [ setCurrentUser (merge userData) ]
   | MeRejected | MeNoSuccess => []
   end ++ [ setTokenLoading false ])%list.

(** [fetchBackendUserData]: the state updates in program order, and whether
    [logout()] (hence [signOut]) was called.  [idToken = None] stands for a
    rejected [getIdToken(true)]. *)
Definition fetchBackendUserData (user : FirebaseUser)
    (idToken : option string) (me : MeResult) : list Action * bool :=
  match idToken with
  | Some t => ((fetch_until_me user t ++ fetch_after_me me)%list, false)
  | None => ([ setTokenLoading true; setTokenLoading false ], true)
  end.

(** The listener passed to [onAuthStateChanged]. *)
Definition onAuthStateChanged (user : option FirebaseUser)
    (idToken : option string) (me : MeResult) : list Action * bool :=
  match user with
  | Some u =>
      let r := fetchBackendUserData u idToken me in
      ((setFirebaseUser (Some u) :: fst r ++ [ setLoading false ])%list, snd r)
  | None =>
      ([ setFirebaseUser None; setCurrentUser (λ _, None); removeToken;
         setLoading false ], false)
  end.

(** The states the UI can observe: the state after each update. *)
Fixpoint trace (s : State) (acts : list Action) : list State :=
  match acts with
  | [] => []
  | a :: rest => a s :: trace (a s) rest
  end.

(** The role carried by the exposed user, if any. *)
Definition exposed_role (s : State) : option jsval :=
  currentUser s ≫= (λ u, u !! "role").

(** The states observed on the first sign-in, from the session-change
    event up to the point where the answer of [/auth/me] is awaited. *)
Definition pre_merge_trace (user : FirebaseUser) (idToken : string) : list State :=
  trace initial (setFirebaseUser (Some user) :: fetch_until_me user idToken).

(** The state reached by a sequence of updates. *)
Definition run_actions (s : State) (acts : list Action) : State :=
  foldl (λ s a, a s) s acts.

End AuthContext.

(* ===================================================================== *)
(** ** Routes: middleware chained in front of a controller *)
(* ===================================================================== *)

Module Routes.

Definition Middleware : Type := Request -> Outcome.
Definition Handler : Type := Db -> Request -> Db * Response.

(** [router.verb(path, mw1, ..., mwn, handler)]: each middleware either
    passes the request on or answers itself, leaving the database alone. *)
Fixpoint route (mws : list Middleware) (h : Handler) (db : Db) (req : Request)
    : Db * Response :=
  match mws with
  | [] => h db req
  | mw :: rest =>
      match mw req with
      | Next req' => route rest h db req'
      | Send res => (db, res)
      end
  end.

(** The two authentication middlewares of the repository, and what
    distinguishes them. *)
Inductive variant : Type := VerifyAuth | AuthenticateUser.

Definition run (v : variant) (env : Env) (p : Provider) : Middleware :=
  match v with
  | VerifyAuth => Auth.verifyAuth env p
  | AuthenticateUser => AuthMiddleware.authenticateUser p
  end.

Definition default_role (v : variant) : string :=
  match v with VerifyAuth => "user" | AuthenticateUser => "resident" end.

Definition invalid_message (v : variant) : string :=
  match v with
  | VerifyAuth => "Invalid token."
  | AuthenticateUser => "Invalid or expired token"
  end.

Definition bypass (v : variant) (env : Env) (token : string) : bool :=
  match v with
  | VerifyAuth => Auth.dev_bypass env token
  | AuthenticateUser => false
  end.

(** The response a middleware sent, if it sent one. *)
Definition sent (o : Outcome) : option Response :=
  match o with Send r => Some r | Next _ => None end.

End Routes.

(* ===================================================================== *)
(** ** Properties stated by the specification, and sample inputs *)
(* ===================================================================== *)

Module Props.

Import Auth AuthMiddleware Routes.

(** The Authorization header is absent, or does not start with [Bearer ]. *)
Definition header_missing_or_malformed (req : Request) : Prop :=
  ∀ h, authorization req = Some h → startsWith h "Bearer " = false.

(** The header carries a token which the provider refuses (outside the
    development bypass). *)
Definition token_rejected (v : variant) (env : Env) (p : Provider) (req : Request) : Prop :=
  ∃ h token e,
    authorization req = Some h ∧ startsWith h "Bearer " = true ∧
    bearer_token h = Some token ∧ bypass v env token = false ∧
    p token = inl e.

(** The outcome is a response with the given status. *)
Definition responds (code : Z) (o : Outcome) : Prop :=
  ∃ r, o = Send r ∧ status r = code.

(** The role stored in the Application User Record of an identity. *)
Definition record_role (db : Db) (id : string) : option jsval :=
  users db !! id ≫= (λ doc, doc !! "role").

(** Role resolution as the specification words it: whenever the request is
    let through, the attached role is the one stored in the user record. *)
Definition role_from_record (db : Db) (o : Outcome) : Prop :=
  ∀ req', o = Next req' →
    ∃ u r, user req' = Some u ∧ role u = Some r ∧
           record_role db (uid u) = Some (JStr r).

(** A field is present in a JSON body. *)
Definition present (k : string) (r : Response) : Prop :=
  ∃ v, json r !! k = Some v ∧ v ≠ JUndefined.

Definition has_message (r : Response) : Prop :=
  ∃ m, json r !! "message" = Some (JStr m).

(** The field [timestamp] holds a reading of [new Date().toISOString()]. *)
Definition has_timestamp (env : Env) (r : Response) : Prop :=
  ∃ k, json r !! "timestamp" = Some (JStr (isoNow env k)).

Definition success_envelope (env : Env) (r : Response) : Prop :=
  json r !! "success" = Some (JBool true) ∧ has_message r ∧
  present "data" r ∧ has_timestamp env r.

Definition error_envelope (env : Env) (r : Response) : Prop :=
  json r !! "success" = Some (JBool false) ∧ has_message r ∧
  has_timestamp env r.

Definition uniform_envelope (env : Env) (r : Response) : Prop :=
  success_envelope env r ∨ error_envelope env r.

(** What the middleware sends instead: the flag and the message only. *)
Definition bare_error (r : Response) : Prop :=
  json r !! "success" = Some (JBool false) ∧ has_message r ∧
  json r !! "timestamp" = None.

Definition bare_if_sent (o : Outcome) : Prop :=
  match sent o with Some r => bare_error r | None => True end.

(** Envelope uniformity as the specification words it, for a middleware. *)
Definition uniform_if_sent (env : Env) (o : Outcome) : Prop :=
  match sent o with Some r => uniform_envelope env r | None => True end.

(** The fields [updateResident] may write, by requester. *)
Definition writable (u : ReqUser) : list string :=
  ["updatedAt"; "displayName"; "phoneNumber"] ++
  (if ResidentController.is_admin u then ["flatNumber"; "blockNumber"] else []).

(** The request with one more field in its body. *)
Definition with_body_field (k : string) (v : jsval) (req : Request) : Request :=
  {| authorization := authorization req; params_id := params_id req;
     body := <[k := v]> (body req); user := user req |}.

(** A request for event or resident [id] made on behalf of [u]. *)
Definition request_as (id : string) (u : ReqUser) : Request :=
  {| authorization := None; params_id := id; body := ∅; user := Some u |}.

(** The attendee list stored for an event. *)
Definition attendees_of (db : Db) (id : string) : option (list string) :=
  events db !! id ≫= attendees.

(** Every attendee list of the database is free of duplicates. *)
Definition attendees_distinct (db : Db) : Prop :=
  ∀ id l, attendees_of db id = Some l → NoDup l.

(** The session bridge as the specification words it: no state observed
    while loading shows a user with role [resident] or [admin]. *)
Definition no_role_while_loading (tr : list AuthContext.State) : Prop :=
  ∀ s, s ∈ tr → AuthContext.loading s = true →
    AuthContext.exposed_role s ≠ Some (JStr "resident") ∧
    AuthContext.exposed_role s ≠ Some (JStr "admin").

End Props.

Module Samples.

Import Auth AuthMiddleware Routes.

Definition clock : nat -> string := λ _, "2025-01-01T18:00:00.000Z".

Definition production : Env := {| NODE_ENV := Some "production"; isoNow := clock |}.
Definition development : Env := {| NODE_ENV := Some "development"; isoNow := clock |}.

Definition with_header (h : option string) : Request :=
  {| authorization := h; params_id := "e1"; body := ∅; user := None |}.

(** A provider that knows two tokens, one issued to [u1] with the claim
    [role: 'admin'] and one issued to [u9] with the claim
    [role: 'super_admin'], and rejects every other one as expired. *)
Definition provider : Provider := λ t,
  if String.eqb t "tok-u1" then
    inr {| d_uid := "u1"; d_email := Some "u1@example.com"; d_role := Some "admin" |}
  else if String.eqb t "tok-u9" then
    inr {| d_uid := "u9"; d_email := None; d_role := Some "super_admin" |}
  else inl {| err_code := "auth/id-token-expired"; err_message := "Firebase ID token has expired." |}.

Definition resident_u1 : gmap string jsval :=
  <["role" := JStr "resident"]> (<["displayName" := JStr "U One"]> ∅).

Definition bbq : Event :=
  {| title := "BBQ"; description := "..."; date := "2025-01-01T18:00:00.000Z";
     endDate := None; location := "Park"; maxAttendees := Some 2;
     image := None; isPublic := true; attendees := Some ["u1"; "u2"];
     createdBy := "admin-user"; createdAt := "2024-12-01T00:00:00.000Z";
     updatedAt := "2024-12-01T00:00:00.000Z" |}.

Definition db0 : Db :=
  {| users := {[ "u1" := resident_u1 ]}; events := {[ "e1" := bbq ]} |}.

(** The same event as [createEvent] stores it, with [attendees: []]. *)
Definition db_new : Db :=
  {| users := {[ "u1" := resident_u1 ]};
     events := {[ "e1" := set_attendees bbq [] "2024-12-01T00:00:00.000Z" ]} |}.

Definition usr (id : string) (r : string) : ReqUser :=
  {| uid := id; email := None; role := Some r |}.

Definition fb_user : AuthContext.FirebaseUser :=
  {| AuthContext.fb_uid := "u1"; AuthContext.fb_email := Some "u1@example.com";
     AuthContext.fb_displayName := Some "U One"; AuthContext.fb_photoURL := None;
     AuthContext.fb_phoneNumber := None |}.

End Samples.

(* ===================================================================== *)
(** ** JSON objects in payloads *)
(* ===================================================================== *)

Module JsonObject.

(** An object built from a map of fields. *)
Definition JMap (m : gmap string jsval) : jsval := JObj (map_to_list m).

(** The fields of an object value; other values have none. *)
Definition fields (v : jsval) : gmap string jsval :=
  match v with
  | JObj o => list_to_map o
  | _ => ∅
  end.

(** [{ k: x, ...m }]: the fields of [m] win over [k]. *)
Definition with_key (k : string) (x : jsval) (m : gmap string jsval) : jsval :=
  JMap (m ∪ {[ k := x ]}).

(** The [data] payload of a response, as a map of fields. *)
Definition data_fields (r : Response) : gmap string jsval :=
  fields (prop (json r) "data").

End JsonObject.

(* ===================================================================== *)
(** ** controllers/residentController.ts: read, create, delete;
       controllers/eventController.ts: delete *)
(* ===================================================================== *)

Module ResidentCrud.

Import ResponseHandler JsonObject.

(** [getResidentById]. *)
Definition getResidentById (env : Env) (db : Db) (req : Request) : Db * Response :=
  match user req with
  | None => (db, errorResponse env 0 500 "Error retrieving resident"
                   (JStr ResidentController.no_user_message))
  | Some u =>
      let residentId := params_id req in
      if negb (ResidentController.is_admin u) && negb (String.eqb (uid u) residentId) then
        (db, errorResponse env 0 403 "Not authorized to access this resident profile" JNull)
      else
        match users db !! residentId with
        | None => (db, errorResponse env 0 404 "Resident not found" JNull)
        | Some doc =>
            (db, successResponse env 0 200 "Resident retrieved successfully"
                   (with_key "id" (JStr residentId) doc))
        end
  end.

(** [db.collection('users').where('email', '==', email).get()] is not
    empty.  [veq] is Firestore's equality on stored values. *)
Definition email_taken (veq : jsval -> jsval -> bool) (db : Db) (email : jsval) : bool :=
  existsb (λ kd : string * gmap string jsval,
             match snd kd !! "email" with
             | Some v => veq v email
             | None => false
             end)
          (map_to_list (users db)).

(** The [newResident] object; the role is the literal ['resident']. *)
Definition newResident (env : Env) (b : gmap string jsval) (createdBy : string)
    : gmap string jsval :=
  <["email" := prop b "email"]>
  (<["displayName" := prop b "name"]>
  (<["phoneNumber" := or_else (prop b "phoneNumber") (JStr "")]>
  (<["flatNumber" := prop b "flatNumber"]>
  (<["blockNumber" := or_else (prop b "blockNumber") (JStr "")]>
  (<["role" := JStr "resident"]>
  (<["createdAt" := JStr (isoNow env 0)]>
  (<["updatedAt" := JStr (isoNow env 1)]>
  (<["createdBy" := JStr createdBy]> ∅)))))))).

(** [createResident].  [newId] is the id which [add] gives the new
    document. *)
Definition createResident (env : Env) (veq : jsval -> jsval -> bool) (newId : string)
    (db : Db) (req : Request) : Db * Response :=
  let b := body req in
  if negb (truthy (prop b "email")) || negb (truthy (prop b "name"))
     || negb (truthy (prop b "flatNumber")) then
    (db, errorResponse env 0 400 "Email, name, and flat number are required" JNull)
  else if email_taken veq db (prop b "email") then
    (db, errorResponse env 0 400 "Resident with this email already exists" JNull)
  else
    match user req with
    | None => (db, errorResponse env 2 500 "Error creating resident"
                     (JStr EventController.no_user_message))
    | Some u =>
        let doc := newResident env b (uid u) in
        ({| users := <[newId := doc]> (users db); events := events db |},
         successResponse env 2 201 "Resident created successfully"
           (with_key "id" (JStr newId) doc))
    end.

(** [deleteResident]. *)
Definition deleteResident (env : Env) (db : Db) (req : Request) : Db * Response :=
  let residentId := params_id req in
  match users db !! residentId with
  | None => (db, errorResponse env 0 404 "Resident not found" JNull)
  | Some _ =>
      ({| users := delete residentId (users db); events := events db |},
       successResponse env 0 200 "Resident deleted successfully" JNull)
  end.

(** [deleteEvent]. *)
Definition deleteEvent (env : Env) (db : Db) (req : Request) : Db * Response :=
  let eventId := params_id req in
  match events db !! eventId with
  | None => (db, errorResponse env 0 404 "Event not found" JNull)
  | Some _ =>
      ({| users := users db; events := delete eventId (events db) |},
       successResponse env 0 200 "Event deleted successfully" JNull)
  end.

End ResidentCrud.

(* ===================================================================== *)
(** ** controllers/authController.ts: register, read and update a profile *)
(* ===================================================================== *)

Module AuthController.

Import ResponseHandler JsonObject.

(** The record [auth.createUser] resolves to. *)
Record UserRecord : Type := mkUserRecord {
  ur_uid : string;
  ur_email : jsval;
  ur_displayName : jsval
}.

(** [auth.createUser(properties)] and [auth.updateUser(uid, properties)]
    of the identity provider; [updateUser] gives [None] when it resolves. *)
Definition CreateUser : Type := gmap string jsval -> ProviderError + UserRecord.
Definition UpdateUser : Type := string -> gmap string jsval -> option ProviderError.

(** [process.env.NODE_ENV === 'development']. *)
Definition is_development (env : Env) : bool :=
  match NODE_ENV env with
  | Some m => String.eqb m "development"
  | None => false
  end.

(** The token handed out "for local testing": [`simulated_token_${Date.now()}`]
    in development mode, [null] otherwise.  [stamp] is the decimal text of
    [Date.now()]. *)
Definition simulated_token (env : Env) (stamp : string) : jsval :=
  if is_development env then JStr ("simulated_token_" ++ stamp) else JNull.

(** The document [registerUser] stores for a new identity. *)
Definition registered_doc (env : Env) (b : gmap string jsval) : gmap string jsval :=
  <["email" := prop b "email"]>
  (<["displayName" := or_else (prop b "displayName") (JStr "")]>
  (<["phoneNumber" := or_else (prop b "phoneNumber") (JStr "")]>
  (<["role" := JStr "resident"]>
  (<["createdAt" := JStr (isoNow env 0)]>
  (<["updatedAt" := JStr (isoNow env 1)]> ∅))))).

(** [registerUser].  [set] replaces the document stored under the new uid. *)
Definition registerUser (env : Env) (createUser : CreateUser) (stamp : string)
    (db : Db) (req : Request) : Db * Response :=
  let b := body req in
  if negb (truthy (prop b "email")) || negb (truthy (prop b "password")) then
    (db, errorResponse env 0 400 "Email and password are required" JNull)
  else
    match createUser
            (<["email" := prop b "email"]>
            (<["password" := prop b "password"]>
            (<["displayName" := prop b "displayName"]>
            (<["phoneNumber" := prop b "phoneNumber"]> ∅)))) with
    | inl e =>
        if String.eqb (err_code e) "auth/email-already-exists" then
          (db, errorResponse env 0 400 "Email already in use" JNull)
        else
          (db, errorResponse env 0 500 "Error registering user" (JStr (err_message e)))
    | inr userRecord =>
        ({| users := <[ur_uid userRecord := registered_doc env b]> (users db);
            events := events db |},
         successResponse env 2 201 "User registered successfully"
           (JMap (<["uid" := JStr (ur_uid userRecord)]>
                 (<["email" := ur_email userRecord]>
                 (<["displayName" := ur_displayName userRecord]>
                 (<["token" := simulated_token env stamp]> ∅))))))
    end.

(** The message of the [TypeError] raised by [const { uid } = req.user!]. *)
Definition no_user_message : string :=
  "Cannot destructure property 'uid' of 'req.user' as it is undefined.".

(** [getCurrentUser]. *)
Definition getCurrentUser (env : Env) (db : Db) (req : Request) : Db * Response :=
  match user req with
  | None => (db, errorResponse env 0 500 "Error fetching user data" (JStr no_user_message))
  | Some u =>
      match users db !! uid u with
      | None => (db, errorResponse env 0 404 "User not found" JNull)
      | Some userData =>
          (db, successResponse env 0 200 "User profile retrieved successfully"
                 (with_key "uid" (JStr (uid u)) userData))
      end
  end.

(** The [updateData] and [authUpdateData] objects of [updateUserProfile]. *)
Definition profile_updateData (env : Env) (b : gmap string jsval) : gmap string jsval :=
  ResidentController.set_if "address" (prop b "address")
    (ResidentController.set_if "phoneNumber" (prop b "phoneNumber")
       (ResidentController.set_if "displayName" (prop b "displayName")
          {[ "updatedAt" := JStr (isoNow env 0) ]})).

Definition authUpdateData (b : gmap string jsval) : gmap string jsval :=
  ResidentController.set_if "phoneNumber" (prop b "phoneNumber")
    (ResidentController.set_if "displayName" (prop b "displayName") ∅).

(** [updateUserProfile].  The middle component is the update the identity
    provider has accepted, if one was made. *)
Definition updateUserProfile (env : Env) (updateUser : UpdateUser)
    (db : Db) (req : Request)
    : Db * option (string * gmap string jsval) * Response :=
  match user req with
  | None => (db, None, errorResponse env 0 500 "Error updating profile" (JStr no_user_message))
  | Some u =>
      let b := body req in
      let attempted := truthy (prop b "displayName") || truthy (prop b "phoneNumber") in
      match (if attempted then updateUser (uid u) (authUpdateData b) else None) with
      | Some e =>
          (db, None, errorResponse env 1 500 "Error updating profile" (JStr (err_message e)))
      | None =>
          let done := if attempted then Some (uid u, authUpdateData b) else None in
          match users_update db (uid u) (profile_updateData env b) with
          | Some db' =>
              (db', done, successResponse env 1 200 "Profile updated successfully" JNull)
          | None =>
              (db, done, errorResponse env 1 500 "Error updating profile"
                           (JStr ResidentController.not_found_message))
          end
      end
  end.

End AuthController.

(* ===================================================================== *)
(** ** middleware/error.ts: errorHandler *)
(* ===================================================================== *)

Module ErrorMiddleware.

Import ResponseHandler.

(** The properties of the thrown value which the handler reads. *)
Record Err : Type := mkErr {
  e_code : jsval;
  e_name : option string;
  e_message : option string;
  e_statusCode : option Z;
  e_stack : option string
}.

(** A nullable string as a value, and inside a template literal. *)
Definition opt_js (o : option string) : jsval :=
  match o with Some s => JStr s | None => JUndefined end.

Definition interpolate (o : option string) : string := default "undefined" o.

(** [err.message || 'Server Error'] and [err.statusCode || 500]. *)
Definition message_or (o : option string) (d : string) : string :=
  match o with
  | Some s => if String.eqb s "" then d else s
  | None => d
  end.

Definition status_or (o : option Z) (d : Z) : Z :=
  match o with
  | Some n => if n =? 0 then d else n
  | None => d
  end.

(** [err.code && err.code.startsWith('auth/')]: a falsy code stops the
    test, a string code is tested, and any other code has no [startsWith]
    to call. *)
Inductive CodeTest : Type :=
| Falsy
| StringCode (c : string)
| NotAFunction.

Definition code_test (c : jsval) : CodeTest :=
  match c with
  | JStr s => if String.eqb s "" then Falsy else StringCode s
  | JArr _ | JObj _ => NotAFunction
  | _ => if truthy c then NotAFunction else Falsy
  end.

Definition not_a_function_message : string := "err.code.startsWith is not a function".

(** The branches after the [auth/] test. *)
Definition after_code_test (env : Env) (err : Err) : Response :=
  if bool_decide (e_name err = Some "ValidationError") then
    errorResponse env 0 400 "Validation Error" (opt_js (e_message err))
  else
    match e_code err with
    | JNum 11000 =>
        errorResponse env 0 400 "Duplicate Field Value" (opt_js (e_message err))
    | _ =>
        errorResponse env 0 (status_or (e_statusCode err) 500)
          (message_or (e_message err) "Server Error")
          (if AuthController.is_development env then opt_js (e_stack err) else JUndefined)
    end.

(** [errorHandler]: the response sent, or the message of the [TypeError]
    it throws itself. *)
Definition errorHandler (env : Env) (err : Err) : string + Response :=
  match code_test (e_code err) with
  | NotAFunction => inl not_a_function_message
  | StringCode c =>
      if startsWith c "auth/" then
        inr (errorResponse env 0 401
               ("Authentication error: " ++ interpolate (e_message err)) (JStr c))
      else inr (after_code_test env err)
  | Falsy => inr (after_code_test env err)
  end.

End ErrorMiddleware.

(* ===================================================================== *)
(** ** config/firebase-admin.ts: the mock identity provider *)
(* ===================================================================== *)

Module MockFirebase.

(** An entry of [mockData.users]. *)
Record MockUser : Type := mkMockUser {
  m_uid : string;
  m_email : string;
  m_displayName : string;
  m_role : string;
  m_admin : bool;
  m_emailVerified : bool;
  m_customToken : string
}.

(** The initial [mockData.users]. *)
Definition mockUsers : list MockUser :=
  [ {| m_uid := "admin-user-id"; m_email := "admin@example.com";
       m_displayName := "Admin User"; m_role := "admin"; m_admin := true;
       m_emailVerified := true; m_customToken := "admin-token" |};
    {| m_uid := "resident-user-id"; m_email := "resident@example.com";
       m_displayName := "Resident User"; m_role := "resident"; m_admin := false;
       m_emailVerified := true; m_customToken := "resident-token" |} ].

(** [u.uid === token || u.customToken === token]. *)
Definition matches (token : string) (u : MockUser) : bool :=
  String.eqb (m_uid u) token || String.eqb (m_customToken u) token.

(** The mock [verifyIdToken]: the decoded token has [uid], [email] and the
    admin flags, and no [role].  The error thrown is a plain [Error]
    without code. *)
Definition verifyIdToken (mockData_users : list MockUser) : Provider := λ token,
  match find (matches token) mockData_users with
  | None => inl {| err_code := ""; err_message := "Invalid token" |}
  | Some u => inr {| d_uid := m_uid u; d_email := Some (m_email u); d_role := None |}
  end.

End MockFirebase.

(* ===================================================================== *)
(** ** routes: the middleware in front of each controller *)
(* ===================================================================== *)

Module Router.

Import Auth Routes.

(** routes/eventRoutes.ts *)
Definition post_event_rsvp (env : Env) (p : Provider) : Handler :=
  route [verifyAuth env p] (EventController.rsvpToEvent env).


Definition delete_event (env : Env) (p : Provider) : Handler :=
  route [verifyAuth env p; verifyAdmin] (ResidentCrud.deleteEvent env).

(** routes/residentRoutes.ts *)
Definition get_resident (env : Env) (p : Provider) : Handler :=
  route [verifyAuth env p] (ResidentCrud.getResidentById env).

Definition post_resident (env : Env) (p : Provider)
    (veq : jsval -> jsval -> bool) (newId : string) : Handler :=
  route [verifyAuth env p; verifyAdmin] (ResidentCrud.createResident env veq newId).

Definition put_resident (env : Env) (p : Provider) : Handler :=
  route [verifyAuth env p] (ResidentController.updateResident env).

Definition delete_resident (env : Env) (p : Provider) : Handler :=
  route [verifyAuth env p; verifyAdmin] (ResidentCrud.deleteResident env).

(** routes/authRoutes.ts *)
Definition get_me (env : Env) (p : Provider) : Handler :=
  route [verifyAuth env p] (AuthController.getCurrentUser env).

End Router.

(* ===================================================================== *)
(** ** Predicates and inputs for the further properties *)
(* ===================================================================== *)

Module More.

Import Props.

(** No event with a positive cap holds more attendees than its cap. *)
Definition within_capacity (db : Db) : Prop :=
  ∀ id ev N, events db !! id = Some ev → maxAttendees ev = Some N → 1 ≤ N →
             Z.of_nat (length (default [] (attendees ev))) ≤ N.

(** A call of one of the two RSVP endpoints. *)
Inductive RsvpCall : Type :=
| Rsvp (env : Env) (req : Request)
| Cancel (env : Env) (req : Request).

Definition call (db : Db) (c : RsvpCall) : Db :=
  match c with
  | Rsvp env req => fst (EventController.rsvpToEvent env db req)
  | Cancel env req => fst (EventController.cancelRsvp env db req)
  end.

(** The database after a sequence of calls, served one after the other. *)
Definition calls (db : Db) (cs : list RsvpCall) : Db := foldl call db cs.

(** Two event documents that differ at most in [attendees] and
    [updatedAt]: they agree once these two fields are blanked. *)
Definition same_but_attendees (ev ev' : Event) : Prop :=
  set_attendees ev' [] "" = set_attendees ev [] "".

(** A string of decimal digits, as [`${Date.now()}`] is. *)
Definition is_digit (c : ascii) : bool :=
  (48 <=? nat_of_ascii c)%nat && (nat_of_ascii c <=? 57)%nat.

Fixpoint digits (s : string) : bool :=
  match s with
  | EmptyString => true
  | String c s' => is_digit c && digits s'
  end.

(** No character of the string is a space. *)
Fixpoint no_space (s : string) : bool :=
  match s with
  | EmptyString => true
  | String c s' => negb (Ascii.eqb c " ") && no_space s'
  end.

(** What the client's [axios.get] makes of the answer to [GET /auth/me]
    sent by [getCurrentUser]: a status outside 2xx rejects; otherwise
    [response.data.success] decides, and [response.data.data] is the user
    data. *)
Definition axios_me (r : Response) : AuthContext.MeResult :=
  if (200 <=? status r) && (status r <? 300) then
    if truthy (prop (json r) "success") then
      AuthContext.MeSuccess (JsonObject.data_fields r)
    else AuthContext.MeNoSuccess
  else AuthContext.MeRejected.

(** The state at the end of a session-change event. *)
Definition after_event (s : AuthContext.State) (user : option AuthContext.FirebaseUser)
    (idToken : option string) (me : AuthContext.MeResult) : AuthContext.State :=
  AuthContext.run_actions s (fst (AuthContext.onAuthStateChanged user idToken me)).

(** Equality of string values, for sample runs of the email query. *)
Definition string_values_equal (v w : jsval) : bool :=
  match v, w with
  | JStr a, JStr b => String.eqb a b
  | _, _ => false
  end.

(** A provider that accepts every token as identity [u7] without role
    claim, and sample provider operations. *)
Definition resident_provider : Provider := λ _,
  inr {| d_uid := "u7"; d_email := None; d_role := None |}.

Definition create_ok : AuthController.CreateUser := λ props,
  inr {| AuthController.ur_uid := "new-uid";
         AuthController.ur_email := prop props "email";
         AuthController.ur_displayName := prop props "displayName" |}.

Definition update_ok : AuthController.UpdateUser := λ _ _, None.

(** An admin's request to create a resident. *)
Definition new_resident_request : Request :=
  {| authorization := None; params_id := "";
     body := <["email" := JStr "new@example.com"]>
             (<["name" := JStr "New Resident"]>
             (<["flatNumber" := JStr "A-101"]>
             (<["role" := JStr "admin"]> ∅)));
     user := Some (Samples.usr "u1" "admin") |}.

(** A call of one of the endpoints that write without deleting or
    replacing a user record. *)
Inductive WriteCall : Type :=
| WUpdateResident (env : Env) (req : Request)
| WUpdateProfile (env : Env) (upd : AuthController.UpdateUser) (req : Request)
| WRsvpCall (c : RsvpCall)
| WDeleteEvent (env : Env) (req : Request)
| WCreateResident (env : Env) (veq : jsval -> jsval -> bool) (newId : string)
    (req : Request).

Definition write (db : Db) (w : WriteCall) : Db :=
  match w with
  | WUpdateResident env req => fst (ResidentController.updateResident env db req)
  | WUpdateProfile env upd req => fst (fst (AuthController.updateUserProfile env upd db req))
  | WRsvpCall c => call db c
  | WDeleteEvent env req => fst (ResidentCrud.deleteEvent env db req)
  | WCreateResident env veq newId req =>
      fst (ResidentCrud.createResident env veq newId db req)
  end.

(** The id that [add] hands out is not yet in use. *)
Definition fresh_id (db : Db) (w : WriteCall) : Prop :=
  match w with
  | WCreateResident _ _ newId _ => users db !! newId = None
  | _ => True
  end.

(** The thrown value with another stack. *)
Definition with_stack (st : option string) (err : ErrorMiddleware.Err)
    : ErrorMiddleware.Err :=
  {| ErrorMiddleware.e_code := ErrorMiddleware.e_code err;
     ErrorMiddleware.e_name := ErrorMiddleware.e_name err;
     ErrorMiddleware.e_message := ErrorMiddleware.e_message err;
     ErrorMiddleware.e_statusCode := ErrorMiddleware.e_statusCode err;
     ErrorMiddleware.e_stack := st |}.

(** A code that is neither falsy nor a string. *)
Definition truthy_non_string (c : jsval) : Prop :=
  match c with
  | JNum n => n ≠ 0
  | JBool b => b = true
  | JArr _ | JObj _ => True
  | _ => False
  end.

(** A plain [Error] without code. *)
Definition sample_error : ErrorMiddleware.Err :=
  {| ErrorMiddleware.e_code := JUndefined;
     ErrorMiddleware.e_name := Some "Error";
     ErrorMiddleware.e_message := Some "boom";
     ErrorMiddleware.e_statusCode := None;
     ErrorMiddleware.e_stack := None |}.

(** A duplicate-key error as a database driver throws it. *)
Definition duplicate_key_error : ErrorMiddleware.Err :=
  {| ErrorMiddleware.e_code := JNum 11000;
     ErrorMiddleware.e_name := Some "MongoError";
     ErrorMiddleware.e_message := Some "E11000 duplicate key error";
     ErrorMiddleware.e_statusCode := None;
     ErrorMiddleware.e_stack := Some "MongoError: E11000 ... at insert" |}.

(** A registration request. *)
Definition register_request : Request :=
  {| authorization := None; params_id := "";
     body := <["email" := JStr "new@example.com"]>
             (<["password" := JStr "secret-password"]>
             (<["role" := JStr "admin"]> ∅));
     user := None |}.

(** An event stored with the cap 0 and two attendees. *)
Definition open_house : Event :=
  {| title := "Open house"; description := "..."; date := "2025-02-01T10:00:00.000Z";
     endDate := None; location := "Hall"; maxAttendees := Some 0;
     image := None; isPublic := true; attendees := Some ["u1"; "u2"];
     createdBy := "admin-user"; createdAt := "2024-12-01T00:00:00.000Z";
     updatedAt := "2024-12-01T00:00:00.000Z" |}.

Definition db_open : Db :=
  {| users := {[ "u1" := Samples.resident_u1 ]};
     events := {[ "e1" := Samples.bbq; "e2" := open_house ]} |}.

Definition db_u7 : Db :=
  {| users := {[ "u7" := Samples.resident_u1 ]};
     events := {[ "e1" := Samples.bbq; "e2" := open_house ]} |}.

End More.

(* ===================================================================== *)
(** ** Strings and headers *)
(* ===================================================================== *)

Section Strings.

Example split_bearer : split " " "Bearer abc def" = ["Bearer"; "abc"; "def"].
Proof. reflexivity. Qed.

Example split_no_token : split " " "Bearer " = ["Bearer"; ""].
Proof. reflexivity. Qed.

Example bearer_token_lowercase : Auth.no_bearer (Some "bearer abc") = true.
Proof. reflexivity. Qed.

Lemma split_nonempty (c : ascii) (s : string) : split c s ≠ [].
Proof.
  destruct s as [|a s]; simpl; [discriminate|].
  destruct (Ascii.eqb a c); [discriminate|].
  destruct (split c s); discriminate.
Qed.

Lemma startsWith_app (s p : string) :
  startsWith s p = true → ∃ r, s = (p ++ r)%string.
Proof.
  unfold startsWith. revert s.
  induction p as [|a p IH]; intros s H.
  - exists s. reflexivity.
  - destruct s as [|b s]; [discriminate H|].
    cbn [String.prefix] in H.
    destruct (ascii_dec a b) as [<-|]; [|discriminate H].
    destruct (IH s H) as [r ->]. exists r. reflexivity.
Qed.

(** After the [Bearer ] test, [split(' ')[1]] is the text up to the next
    space, and is never [undefined]. *)
Lemma bearer_token_app (r : string) :
  Auth.bearer_token ("Bearer " ++ r) = split " " r !! 0%nat.
Proof. reflexivity. Qed.

Lemma bearer_token_defined (h : string) :
  startsWith h "Bearer " = true → is_Some (Auth.bearer_token h).
Proof.
  intros H. apply startsWith_app in H as [r ->].
  rewrite bearer_token_app.
  pose proof (split_nonempty " " r) as Hne.
  destruct (split " " r); [congruence|]. simpl. eauto.
Qed.

Lemma no_bearer_false (o : option string) :
  Auth.no_bearer o = false ↔ ∃ h, o = Some h ∧ startsWith h "Bearer " = true.
Proof.
  unfold Auth.no_bearer. split.
  - destruct o as [h|]; [|discriminate]. intros H.
    apply orb_false_iff in H as [_ H]. apply negb_false_iff in H. eauto.
  - intros (h & -> & H). rewrite H. simpl.
    destruct h; [discriminate H|reflexivity].
Qed.

Lemma no_bearer_true (req : Request) :
  Auth.no_bearer (authorization req) = true ↔ Props.header_missing_or_malformed req.
Proof.
  unfold Props.header_missing_or_malformed. split.
  - intros H h Hh. destruct (startsWith h "Bearer ") eqn:E; [|reflexivity].
    assert (Auth.no_bearer (authorization req) = false) as Hf
      by (apply no_bearer_false; eauto).
    congruence.
  - intros H. destruct (Auth.no_bearer (authorization req)) eqn:E; [reflexivity|].
    apply no_bearer_false in E as (h & Hh & Hs). rewrite (H h Hh) in Hs. discriminate.
Qed.

End Strings.

(* ===================================================================== *)
(** ** The authentication middleware *)
(* ===================================================================== *)

Section Authentication.

Import Auth AuthMiddleware Routes Props.

Variable v : variant.
Variable env : Env.
Variable p : Provider.
Variable req : Request.

Lemma run_no_bearer :
  no_bearer (authorization req) = true →
  run v env p req = Send (deny 401 "Access denied. No token provided.").
Proof.
  intros H. destruct v; simpl; unfold verifyAuth, authenticateUser;
    rewrite H; reflexivity.
Qed.

(** Past the header test, the outcome is decided by the bypass and by the
    provider's answer for the token. *)
Lemma run_with_token (h token : string) :
  authorization req = Some h →
  startsWith h "Bearer " = true →
  bearer_token h = Some token →
  run v env p req =
    if bypass v env token then Next (set_user req mock_user)
    else match p token with
         | inr d =>
             Next (set_user req
                     {| uid := d_uid d; email := d_email d;
                        role := Some (role_or (d_role d) (default_role v)) |})
         | inl _ => Send (deny 403 (invalid_message v))
         end.
Proof.
  intros Hh Hs Ht.
  assert (no_bearer (authorization req) = false) as Hnb
    by (apply no_bearer_false; eauto).
  destruct v; simpl; unfold verifyAuth, authenticateUser;
    rewrite Hnb, Hh; simpl; rewrite Ht; reflexivity.
Qed.

Lemma dev_bypass_off (token : string) :
  NODE_ENV env ≠ Some "development" → dev_bypass env token = false.
Proof.
  unfold dev_bypass. intros H. destruct (NODE_ENV env) as [m|]; [|reflexivity].
  destruct (String.eqb_spec m "development") as [->|]; [congruence|reflexivity].
Qed.

Lemma dev_bypass_on (token : string) :
  NODE_ENV env = Some "development" →
  startsWith token "simulated_token_" = true →
  dev_bypass env token = true.
Proof. unfold dev_bypass. intros -> ->. reflexivity. Qed.

End Authentication.

(* ===================================================================== *)
(** ** The admin gate *)
(* ===================================================================== *)

Section AdminGate.

Import Auth AuthMiddleware Routes Props.

Lemma verifyAdmin_next_iff (req req' : Request) :
  verifyAdmin req = Next req' ↔
  req' = req ∧ ∃ u, user req = Some u ∧ role u = Some "admin".
Proof.
  unfold verifyAdmin, not_admin. split.
  - destruct (user req) as [u|]; [|discriminate].
    destruct (role u) as [r|] eqn:Hr; [|discriminate].
    destruct (String.eqb_spec r "admin") as [->|]; [|discriminate].
    simpl. intros [= <-]. eauto.
  - intros (-> & u & -> & ->). reflexivity.
Qed.

(** [requireAdmin] continues exactly for an attached context whose role is
    [admin] or [super_admin]; otherwise it answers 401 (no context) or 403. *)
Lemma requireAdmin_gate (req : Request) :
  (∀ req', requireAdmin req = Next req' ↔
     req' = req ∧ ∃ u, user req = Some u ∧
                       (role u = Some "admin" ∨ role u = Some "super_admin")) ∧
  (user req = None → requireAdmin req = Send (deny 401 "Authentication required")) ∧
  (∀ u, user req = Some u →
        role u ≠ Some "admin" → role u ≠ Some "super_admin" →
        requireAdmin req = Send (deny 403 "Admin privileges required")).
Proof.
  unfold requireAdmin, not_admin_or_super. split; [|split].
  - intros req'. split.
    + destruct (user req) as [u|]; [|discriminate].
      destruct (role u) as [r|] eqn:Hr; [|discriminate].
      destruct (String.eqb_spec r "admin") as [->|];
        [simpl; intros [= <-]; eauto|].
      destruct (String.eqb_spec r "super_admin") as [->|]; [|discriminate].
      simpl. intros [= <-]. eauto.
    + intros (-> & u & -> & [-> | ->]); reflexivity.
  - intros ->. reflexivity.
  - intros u -> H1 H2. destruct (role u) as [r|]; [|reflexivity].
    destruct (String.eqb_spec r "admin") as [->|]; [congruence|].
    destruct (String.eqb_spec r "super_admin") as [->|]; [congruence|].
    reflexivity.
Qed.

(** C2, at the failing input: with the role [super_admin] attached,
    [verifyAdmin] (the gate mounted on the routes) answers 403 and does not
    continue, whereas [requireAdmin] lets the same request through.  The
    input is reachable: a token with the claim [role: 'super_admin'] sent
    to an admin-only route gets the 403 and the controller does not run. *)
Theorem verifyAdmin_rejects_super_admin :
  let req := request_as "e1" (Samples.usr "u9" "super_admin") in
  verifyAdmin req = Send (deny 403 "Access denied. Admin privileges required.") ∧
  requireAdmin req = Next req ∧
  ∀ (ctl : Handler) (db : Db),
    route [verifyAuth Samples.production Samples.provider; verifyAdmin] ctl db
      (Samples.with_header (Some "Bearer tok-u9")) =
    (db, deny 403 "Access denied. Admin privileges required.").
Proof.
  cbn zeta. split; [reflexivity|]. split; [reflexivity|].
  intros ctl db. reflexivity.
Qed.

End AdminGate.

(* ===================================================================== *)
(** ** Claims about authentication *)
(* ===================================================================== *)

Section AuthClaims.

Import Auth AuthMiddleware Routes Props.

(** C8: outside development mode the magic-prefix bypass is unreachable:
    whatever the token (also one starting with [simulated_token_]),
    [verifyAuth] submits it to the provider and the outcome is the
    provider's: the decoded identity, or 403 without any identity. *)
Theorem no_bypass_outside_development
    (env : Env) (p : Provider) (req : Request) (h token : string) :
  NODE_ENV env ≠ Some "development" →
  authorization req = Some h →
  startsWith h "Bearer " = true →
  bearer_token h = Some token →
  verifyAuth env p req =
    match p token with
    | inr d =>
        Next (set_user req
                {| uid := d_uid d; email := d_email d;
                   role := Some (role_or (d_role d) "user") |})
    | inl _ => Send (deny 403 "Invalid token.")
    end.
Proof.
  intros Hm Hh Hs Ht.
  change (verifyAuth env p req) with (run VerifyAuth env p req).
  rewrite (run_with_token VerifyAuth env p req h token Hh Hs Ht).
  simpl. rewrite dev_bypass_off by assumption. reflexivity.
Qed.

Lemma no_bypass_outside_development_witness :
  verifyAuth Samples.production Samples.provider
    (Samples.with_header (Some "Bearer simulated_token_1700000000000")) =
  Send (deny 403 "Invalid token.").
Proof.
  apply (no_bypass_outside_development Samples.production Samples.provider
           (Samples.with_header (Some "Bearer simulated_token_1700000000000"))
           "Bearer simulated_token_1700000000000" "simulated_token_1700000000000").
  - discriminate.
  - reflexivity.
  - reflexivity.
  - reflexivity.
Defined.

(** C10: in development mode a token starting with [simulated_token_] is
    given the fixed mock identity whatever the provider would say, and no
    database is involved; the request then passes [verifyAdmin], so an
    admin-only route runs its controller on the mock identity. *)
Theorem dev_bypass_grants_mock_admin
    (env : Env) (p : Provider) (req : Request) (h token : string) :
  NODE_ENV env = Some "development" →
  authorization req = Some h →
  startsWith h "Bearer " = true →
  bearer_token h = Some token →
  startsWith token "simulated_token_" = true →
  verifyAuth env p req = Next (set_user req mock_user) ∧
  mock_user = {| uid := "dev-user-123"; email := Some "dev@example.com";
                 role := Some "admin" |} ∧
  verifyAdmin (set_user req mock_user) = Next (set_user req mock_user) ∧
  ∀ (ctl : Handler) (db : Db),
    route [verifyAuth env p; verifyAdmin] ctl db req =
    ctl db (set_user req mock_user).
Proof.
  intros Hm Hh Hs Ht Hp.
  assert (verifyAuth env p req = Next (set_user req mock_user)) as Hv.
  { change (verifyAuth env p req) with (run VerifyAuth env p req).
    rewrite (run_with_token VerifyAuth env p req h token Hh Hs Ht).
    simpl. rewrite dev_bypass_on by assumption. reflexivity. }
  repeat split; [exact Hv|].
  intros ctl db. simpl. rewrite Hv. reflexivity.
Qed.

Lemma dev_bypass_grants_mock_admin_witness :
  verifyAuth Samples.development Samples.provider
    (Samples.with_header (Some "Bearer simulated_token_1700000000000")) =
  Next (set_user (Samples.with_header (Some "Bearer simulated_token_1700000000000"))
          mock_user).
Proof.
  apply (dev_bypass_grants_mock_admin Samples.development Samples.provider
           (Samples.with_header (Some "Bearer simulated_token_1700000000000"))
           "Bearer simulated_token_1700000000000" "simulated_token_1700000000000");
    reflexivity.
Defined.

End AuthClaims.

(* ===================================================================== *)
(** ** Role resolution and authentication failures *)
(* ===================================================================== *)

Section RoleResolution.

Import Auth AuthMiddleware Routes Props.

(** C1, as stated, fails: the user record of [u1] holds the role
    [resident] while the verified token carries the claim [admin];
    [verifyAuth] lets the request through with the role [admin]. *)
Lemma role_from_record_counterexample :
  ¬ role_from_record Samples.db0
      (verifyAuth Samples.production Samples.provider
         (Samples.with_header (Some "Bearer tok-u1"))).
Proof.
  intros H.
  destruct (H (set_user (Samples.with_header (Some "Bearer tok-u1"))
                 {| uid := "u1"; email := Some "u1@example.com";
                    role := Some "admin" |}) eq_refl)
    as (u & r & Hu & Hr & Hrec).
  simpl in Hu. injection Hu as <-. simpl in Hr. injection Hr as <-.
  vm_compute in Hrec. discriminate Hrec.
Qed.

(** C1, amended: whenever either authentication middleware lets a request
    through, the attached identity is the mock identity (development bypass
    of [verifyAuth]) or the one decoded from the token, whose role is the
    token's [role] claim, or the default role of the middleware ([user] for
    [verifyAuth], [resident] for [authenticateUser]) when the claim is
    absent or empty.  The users collection takes no part. *)
Theorem role_from_token_claim
    (v : variant) (env : Env) (p : Provider) (req req' : Request) :
  run v env p req = Next req' →
  ∃ h token,
    authorization req = Some h ∧ bearer_token h = Some token ∧
    ((bypass v env token = true ∧ req' = set_user req mock_user) ∨
     (bypass v env token = false ∧
      ∃ d, p token = inr d ∧
           req' = set_user req
                    {| uid := d_uid d; email := d_email d;
                       role := Some (role_or (d_role d) (default_role v)) |})).
Proof.
  intros H.
  destruct (no_bearer (authorization req)) eqn:Hnb.
  { rewrite run_no_bearer in H by assumption. discriminate H. }
  apply no_bearer_false in Hnb as (h & Hh & Hs).
  destruct (bearer_token_defined h Hs) as [token Ht].
  rewrite (run_with_token v env p req h token Hh Hs Ht) in H.
  exists h, token. repeat split; try assumption.
  destruct (bypass v env token).
  - left. split; [reflexivity|]. congruence.
  - right. split; [reflexivity|].
    destruct (p token) as [e|d]; [discriminate H|].
    exists d. split; [reflexivity|]. congruence.
Qed.

Lemma role_from_token_claim_witness :
  ∃ h token,
    authorization (Samples.with_header (Some "Bearer tok-u1")) = Some h ∧
    bearer_token h = Some token ∧
    ((bypass VerifyAuth Samples.production token = true ∧
      set_user (Samples.with_header (Some "Bearer tok-u1"))
        {| uid := "u1"; email := Some "u1@example.com"; role := Some "admin" |} =
      set_user (Samples.with_header (Some "Bearer tok-u1")) mock_user) ∨
     (bypass VerifyAuth Samples.production token = false ∧
      ∃ d, Samples.provider token = inr d ∧
           set_user (Samples.with_header (Some "Bearer tok-u1"))
             {| uid := "u1"; email := Some "u1@example.com"; role := Some "admin" |} =
           set_user (Samples.with_header (Some "Bearer tok-u1"))
             {| uid := d_uid d; email := d_email d;
                role := Some (role_or (d_role d) (default_role VerifyAuth)) |})).
Proof.
  apply (role_from_token_claim VerifyAuth Samples.production Samples.provider
           (Samples.with_header (Some "Bearer tok-u1"))).
  reflexivity.
Defined.

(** C3, as stated, fails: a token the provider refuses as expired is
    answered with status 403, not 401. *)
Lemma rejected_token_counterexample :
  ¬ responds 401
      (verifyAuth Samples.production Samples.provider
         (Samples.with_header (Some "Bearer expired-token"))).
Proof.
  intros (r & Hr & Hs). vm_compute in Hr. injection Hr as <-.
  vm_compute in Hs. discriminate Hs.
Qed.

(** C3, amended: when the Authorization header is absent or does not start
    with [Bearer ], both middlewares answer 401; when the provider refuses
    the token, whatever its error, they answer 403 with a fixed body
    ([success: false] and a fixed message) that carries nothing of the
    provider's error.  In both cases no later middleware or controller of
    the route runs, and the database is left as it was. *)
Theorem authentication_failure_responses
    (v : variant) (env : Env) (p : Provider) (req : Request) :
  header_missing_or_malformed req ∨ token_rejected v env p req →
  ∃ res,
    run v env p req = Send res ∧
    (header_missing_or_malformed req →
       res = deny 401 "Access denied. No token provided.") ∧
    (token_rejected v env p req → res = deny 403 (invalid_message v)) ∧
    ∀ (mws : list Middleware) (ctl : Handler) (db : Db),
      route (run v env p :: mws) ctl db req = (db, res).
Proof.
  intros H.
  assert (∃ res, run v env p req = Send res ∧
            (header_missing_or_malformed req →
               res = deny 401 "Access denied. No token provided.") ∧
            (token_rejected v env p req → res = deny 403 (invalid_message v)))
    as (res & Hrun & H1 & H2).
  { destruct H as [H | H].
    - exists (deny 401 "Access denied. No token provided.").
      split; [apply run_no_bearer, no_bearer_true, H|].
      split; [reflexivity|].
      intros (h & token & e & Hh & Hs & _). rewrite (H h Hh) in Hs. discriminate Hs.
    - exists (deny 403 (invalid_message v)).
      destruct H as (h & token & e & Hh & Hs & Ht & Hb & He).
      split.
      + rewrite (run_with_token v env p req h token Hh Hs Ht), Hb, He. reflexivity.
      + split; [|reflexivity].
        intros Hm. rewrite (Hm h Hh) in Hs. discriminate Hs. }
  exists res. repeat split; try assumption.
  intros mws ctl db. simpl. rewrite Hrun. reflexivity.
Qed.

Lemma authentication_failure_responses_witness :
  ∃ res,
    run VerifyAuth Samples.production Samples.provider
      (Samples.with_header (Some "Bearer expired-token")) = Send res ∧
    (header_missing_or_malformed (Samples.with_header (Some "Bearer expired-token")) →
       res = deny 401 "Access denied. No token provided.") ∧
    (token_rejected VerifyAuth Samples.production Samples.provider
       (Samples.with_header (Some "Bearer expired-token")) →
     res = deny 403 (invalid_message VerifyAuth)) ∧
    ∀ (mws : list Middleware) (ctl : Handler) (db : Db),
      route (run VerifyAuth Samples.production Samples.provider :: mws) ctl db
        (Samples.with_header (Some "Bearer expired-token")) = (db, res).
Proof.
  apply (authentication_failure_responses VerifyAuth Samples.production
           Samples.provider (Samples.with_header (Some "Bearer expired-token"))).
  right.
  exists "Bearer expired-token", "expired-token",
    {| err_code := "auth/id-token-expired";
       err_message := "Firebase ID token has expired." |}.
  repeat split; reflexivity.
Defined.

End RoleResolution.

(* ===================================================================== *)
(** ** RSVP and cancellation *)
(* ===================================================================== *)

Section Rsvp.

Import ResponseHandler EventController Props.

Lemma includes_true (l : list string) (x : string) : includes l x = true ↔ x ∈ l.
Proof. unfold includes. apply bool_decide_eq_true. Qed.

Lemma includes_false (l : list string) (x : string) : includes l x = false ↔ x ∉ l.
Proof. unfold includes. apply bool_decide_eq_false. Qed.

Variable env : Env.
Variable db : Db.
Variable req : Request.
Variable u : ReqUser.
Variable ev : Event.
Hypothesis Huser : user req = Some u.
Hypothesis Hev : events db !! params_id req = Some ev.

Lemma rsvp_duplicate :
  uid u ∈ default [] (attendees ev) →
  rsvpToEvent env db req =
    (db, errorResponse env 0 400 "You have already RSVP'd to this event" JNull).
Proof.
  intros Hin. unfold rsvpToEvent. rewrite Huser, Hev. simpl.
  apply includes_true in Hin. rewrite Hin. reflexivity.
Qed.

Lemma rsvp_full :
  uid u ∉ default [] (attendees ev) →
  max_reached ev (default [] (attendees ev)) = true →
  rsvpToEvent env db req =
    (db, errorResponse env 0 400 "Event has reached maximum attendees" JNull).
Proof.
  intros Hin Hmax. unfold rsvpToEvent. rewrite Huser, Hev. simpl.
  apply includes_false in Hin. rewrite Hin, Hmax. reflexivity.
Qed.

Lemma rsvp_success :
  uid u ∉ default [] (attendees ev) →
  max_reached ev (default [] (attendees ev)) = false →
  ∃ db',
    rsvpToEvent env db req = (db', successResponse env 1 200 "RSVP successful" JNull) ∧
    users db' = users db ∧
    events db' =
      <[params_id req := set_attendees ev (default [] (attendees ev) ++ [uid u])
                           (isoNow env 0)]> (events db).
Proof.
  intros Hin Hmax. unfold rsvpToEvent. rewrite Huser, Hev. simpl.
  apply includes_false in Hin. rewrite Hin, Hmax.
  unfold events_update. rewrite Hev. eexists. repeat split.
Qed.

Lemma cancel_success :
  uid u ∈ default [] (attendees ev) →
  ∃ db',
    cancelRsvp env db req =
      (db', successResponse env 1 200 "RSVP canceled successfully" JNull) ∧
    users db' = users db ∧
    events db' =
      <[params_id req :=
          set_attendees ev (filter (λ id, id ≠ uid u) (default [] (attendees ev)))
            (isoNow env 0)]> (events db).
Proof.
  intros Hin. unfold cancelRsvp. rewrite Huser, Hev. simpl.
  apply includes_true in Hin. rewrite Hin. simpl.
  unfold events_update. rewrite Hev. eexists. repeat split.
Qed.

End Rsvp.

Section AttendeeLists.

(** Removing a member of a duplicate-free list shortens it by one. *)
Lemma length_filter_remove (a : string) (l : list string) :
  NoDup l → a ∈ l → S (length (filter (λ x, x ≠ a) l)) = length l.
Proof.
  induction 1 as [|x l Hx Hnd IH]; intros Hin.
  - inversion Hin.
  - rewrite filter_cons. destruct (decide (x ≠ a)) as [Hne | Heq].
    + simpl. f_equal. apply IH.
      apply elem_of_cons in Hin as [-> | Hin]; [congruence | exact Hin].
    + apply dec_stable in Heq. subst x. simpl. f_equal.
      clear IH Hin Hnd. induction l as [|y l IH]; [reflexivity|].
      rewrite filter_cons. apply not_elem_of_cons in Hx as [Hya Hl].
      destruct (decide (y ≠ a)) as [_ | Hc]; [|apply dec_stable in Hc; congruence].
      simpl. f_equal. apply IH, Hl.
Qed.

Lemma NoDup_filter_snoc (a v : string) (l : list string) :
  NoDup l → v ∉ filter (λ x, x ≠ a) l → NoDup (filter (λ x, x ≠ a) l ++ [v]).
Proof.
  intros Hnd Hv. apply NoDup_app. split; [apply NoDup_filter, Hnd|].
  split; [|apply NoDup_singleton].
  intros x Hx Hx'. apply list_elem_of_singleton in Hx'. subst x. contradiction.
Qed.

End AttendeeLists.

Section AttendeeInvariant.

Import ResponseHandler EventController Props.

(** The controllers read the event id and the attached identity only. *)
Lemma rsvpToEvent_request_as (env : Env) (db : Db) (req : Request) (u : ReqUser) :
  user req = Some u →
  rsvpToEvent env db req = rsvpToEvent env db (request_as (params_id req) u).
Proof. intros Hu. unfold rsvpToEvent, request_as. rewrite Hu. reflexivity. Qed.

Lemma cancelRsvp_request_as (env : Env) (db : Db) (req : Request) (u : ReqUser) :
  user req = Some u →
  cancelRsvp env db req = cancelRsvp env db (request_as (params_id req) u).
Proof. intros Hu. unfold cancelRsvp, request_as. rewrite Hu. reflexivity. Qed.

Lemma attendees_of_insert (db db' : Db) (id id' : string) (ev : Event)
    (l : list string) (t : string) :
  events db' = <[id := set_attendees ev l t]> (events db) →
  attendees_of db' id' = if decide (id = id') then Some l else attendees_of db id'.
Proof.
  intros He. unfold attendees_of. rewrite He.
  destruct (decide (id = id')) as [<-|Hne].
  - rewrite lookup_insert_eq. reflexivity.
  - rewrite lookup_insert_ne by exact Hne. reflexivity.
Qed.

Lemma default_attendees_distinct (db : Db) (id : string) (ev : Event) :
  attendees_distinct db → events db !! id = Some ev →
  NoDup (default [] (attendees ev)).
Proof.
  intros Hinv Hev. destruct (attendees ev) as [l|] eqn:Hl; [|apply NoDup_nil_2].
  apply (Hinv id). unfold attendees_of. rewrite Hev. exact Hl.
Qed.

(** Neither an RSVP nor a cancellation introduces a duplicate, so the
    attendee lists built from [attendees: []] stay sets. *)
Lemma rsvpToEvent_distinct (env : Env) (db : Db) (req : Request) :
  attendees_distinct db → attendees_distinct (fst (rsvpToEvent env db req)).
Proof.
  intros Hinv.
  destruct (user req) as [u|] eqn:Hu;
    [|unfold rsvpToEvent; rewrite Hu; exact Hinv].
  destruct (events db !! params_id req) as [ev|] eqn:Hev;
    [|unfold rsvpToEvent; rewrite Hu, Hev; exact Hinv].
  destruct (decide (uid u ∈ default [] (attendees ev))) as [Hin|Hin].
  { rewrite (rsvp_duplicate env db req u ev Hu Hev Hin). exact Hinv. }
  destruct (max_reached ev (default [] (attendees ev))) eqn:Hmax.
  { rewrite (rsvp_full env db req u ev Hu Hev Hin Hmax). exact Hinv. }
  destruct (rsvp_success env db req u ev Hu Hev Hin Hmax) as (db' & -> & _ & He).
  intros id l. simpl. rewrite (attendees_of_insert _ _ _ id _ _ _ He).
  destruct (decide (params_id req = id)); [|apply Hinv].
  intros [= <-]. apply NoDup_app.
  split; [apply (default_attendees_distinct db (params_id req)); assumption|].
  split; [|apply NoDup_singleton].
  intros x Hx Hx'. apply list_elem_of_singleton in Hx'. subst x. contradiction.
Qed.

Lemma cancelRsvp_distinct (env : Env) (db : Db) (req : Request) :
  attendees_distinct db → attendees_distinct (fst (cancelRsvp env db req)).
Proof.
  intros Hinv.
  destruct (user req) as [u|] eqn:Hu;
    [|unfold cancelRsvp; rewrite Hu; exact Hinv].
  destruct (events db !! params_id req) as [ev|] eqn:Hev;
    [|unfold cancelRsvp; rewrite Hu, Hev; exact Hinv].
  destruct (decide (uid u ∈ default [] (attendees ev))) as [Hin|Hin].
  - destruct (cancel_success env db req u ev Hu Hev Hin) as (db' & -> & _ & He).
    intros id l. simpl. rewrite (attendees_of_insert _ _ _ id _ _ _ He).
    destruct (decide (params_id req = id)); [|apply Hinv].
    intros [= <-]. apply NoDup_filter.
    apply (default_attendees_distinct db (params_id req)); assumption.
  - unfold cancelRsvp. rewrite Hu, Hev. simpl.
    apply includes_false in Hin. rewrite Hin. exact Hinv.
Qed.

End AttendeeInvariant.

(* ===================================================================== *)
(** ** Claims about RSVP *)
(* ===================================================================== *)

Section RsvpClaims.

Import ResponseHandler EventController Props.

(** The scenario of the specification: with a cap of two, two distinct
    residents RSVP and are answered 200, the third is answered 400. *)
Example rsvp_scenario :
  let r1 := rsvpToEvent Samples.production Samples.db_new
              (request_as "e1" (Samples.usr "u1" "resident")) in
  let r2 := rsvpToEvent Samples.production (fst r1)
              (request_as "e1" (Samples.usr "u2" "resident")) in
  let r3 := rsvpToEvent Samples.production (fst r2)
              (request_as "e1" (Samples.usr "u3" "resident")) in
  status (snd r1) = 200 ∧ status (snd r2) = 200 ∧
  attendees_of (fst r2) "e1" = Some ["u1"; "u2"] ∧
  status (snd r3) = 400 ∧
  json (snd r3) !! "message" = Some (JStr "Event has reached maximum attendees") ∧
  attendees_of (fst r3) "e1" = Some ["u1"; "u2"].
Proof. vm_compute. repeat split. Qed.

Lemma max_reached_cap (ev : Event) (l : list string) (N : Z) :
  maxAttendees ev = Some N → 1 ≤ N →
  max_reached ev l = (N <=? Z.of_nat (length l)).
Proof.
  unfold max_reached. intros -> HN.
  destruct (Z.eqb_spec N 0) as [->|]; [lia|reflexivity].
Qed.

(** C5: a second RSVP by a user already in the attendee list is answered
    with status 400 and the error envelope, and the database (hence the
    event document and its attendee list) is left exactly as it was. *)
Theorem duplicate_rsvp_rejected
    (env : Env) (db : Db) (req : Request) (u : ReqUser) (ev : Event) :
  user req = Some u →
  events db !! params_id req = Some ev →
  uid u ∈ default [] (attendees ev) →
  rsvpToEvent env db req =
    (db, errorResponse env 0 400 "You have already RSVP'd to this event" JNull) ∧
  status (snd (rsvpToEvent env db req)) = 400 ∧
  attendees_of (fst (rsvpToEvent env db req)) (params_id req) = attendees ev.
Proof.
  intros Hu Hev Hin.
  rewrite (rsvp_duplicate env db req u ev Hu Hev Hin). simpl.
  repeat split. unfold attendees_of. rewrite Hev. reflexivity.
Qed.

Lemma duplicate_rsvp_rejected_witness :
  rsvpToEvent Samples.production Samples.db0
    (request_as "e1" (Samples.usr "u1" "resident")) =
  (Samples.db0,
   errorResponse Samples.production 0 400 "You have already RSVP'd to this event" JNull).
Proof.
  apply (duplicate_rsvp_rejected Samples.production Samples.db0
           (request_as "e1" (Samples.usr "u1" "resident"))
           (Samples.usr "u1" "resident") Samples.bbq).
  - reflexivity.
  - reflexivity.
  - simpl. apply (bool_decide_unpack _). vm_compute. exact I.
Defined.

(** C4: for an event whose cap [N ≥ 1] is met by [N] distinct attendees,
    an RSVP by a user outside the list is answered with status 400 and
    changes nothing; once an attendee has cancelled, one RSVP by a user
    outside the list succeeds and brings the list back to [N] distinct
    attendees, and the RSVP after that one is answered with status 400
    again. *)
Theorem capacity_boundary
    (e0 e1 e2 e3 : Env) (db : Db) (id : string) (ev : Event)
    (l : list string) (N : Z) (u a : ReqUser) :
  events db !! id = Some ev →
  attendees ev = Some l →
  NoDup l →
  maxAttendees ev = Some N →
  1 ≤ N →
  Z.of_nat (length l) = N →
  uid u ∉ l →
  uid a ∈ l →
  rsvpToEvent e0 db (request_as id u) =
    (db, errorResponse e0 0 400 "Event has reached maximum attendees" JNull) ∧
  ∃ db1,
    cancelRsvp e1 db (request_as id a) =
      (db1, successResponse e1 1 200 "RSVP canceled successfully" JNull) ∧
    attendees_of db1 id = Some (filter (λ x, x ≠ uid a) l) ∧
    Z.of_nat (length (filter (λ x, x ≠ uid a) l)) = N - 1 ∧
    ∀ v : ReqUser, uid v ∉ filter (λ x, x ≠ uid a) l →
      ∃ db2 l2,
        rsvpToEvent e2 db1 (request_as id v) =
          (db2, successResponse e2 1 200 "RSVP successful" JNull) ∧
        attendees_of db2 id = Some l2 ∧ NoDup l2 ∧ Z.of_nat (length l2) = N ∧
        ∀ w : ReqUser, uid w ∉ l2 →
          rsvpToEvent e3 db2 (request_as id w) =
            (db2, errorResponse e3 0 400 "Event has reached maximum attendees" JNull).
Proof.
  intros Hev Hl Hnd Hmax HN Hlen Hu Ha.
  assert (S (length (filter (λ x, x ≠ uid a) l)) = length l) as Hlen1
    by (apply length_filter_remove; assumption).
  split.
  { apply (rsvp_full e0 db (request_as id u) u ev eq_refl Hev);
      rewrite Hl; simpl; [exact Hu|].
    rewrite (max_reached_cap ev l N Hmax HN). apply Z.leb_le. lia. }
  destruct (cancel_success e1 db (request_as id a) a ev eq_refl Hev)
    as (db1 & Hc & _ & He1).
  { rewrite Hl. exact Ha. }
  rewrite Hl in He1. simpl in He1.
  set (l1 := filter (λ x, x ≠ uid a) l) in *.
  set (ev1 := set_attendees ev l1 (isoNow e1 0)) in *.
  assert (events db1 !! id = Some ev1) as Hev1
    by (rewrite He1; apply lookup_insert_eq).
  exists db1. split; [exact Hc|].
  split; [unfold attendees_of; rewrite Hev1; reflexivity|].
  split; [lia|].
  intros v Hv.
  destruct (rsvp_success e2 db1 (request_as id v) v ev1 eq_refl Hev1)
    as (db2 & Hr & _ & He2).
  { exact Hv. }
  { simpl. rewrite (max_reached_cap ev1 l1 N Hmax HN). apply Z.leb_gt. lia. }
  simpl in He2.
  set (l2 := (l1 ++ [uid v])%list) in *.
  set (ev2 := set_attendees ev1 l2 (isoNow e2 0)) in *.
  assert (events db2 !! id = Some ev2) as Hev2
    by (rewrite He2; apply lookup_insert_eq).
  assert (Z.of_nat (length l2) = N) as Hlen2.
  { unfold l2. rewrite length_app. simpl. lia. }
  exists db2, l2. split; [exact Hr|].
  split; [unfold attendees_of; rewrite Hev2; reflexivity|].
  split; [apply NoDup_filter_snoc; assumption|].
  split; [exact Hlen2|].
  intros w Hw.
  apply (rsvp_full e3 db2 (request_as id w) w ev2 eq_refl Hev2); simpl; [exact Hw|].
  rewrite (max_reached_cap ev2 l2 N Hmax HN). apply Z.leb_le. lia.
Qed.

Lemma capacity_boundary_witness :
  rsvpToEvent Samples.production Samples.db0
    (request_as "e1" (Samples.usr "u3" "resident")) =
  (Samples.db0,
   errorResponse Samples.production 0 400 "Event has reached maximum attendees" JNull).
Proof.
  apply (capacity_boundary Samples.production Samples.production
           Samples.production Samples.production Samples.db0 "e1" Samples.bbq
           ["u1"; "u2"] 2 (Samples.usr "u3" "resident") (Samples.usr "u1" "resident")).
  - reflexivity.
  - reflexivity.
  - apply (bool_decide_unpack _). vm_compute. exact I.
  - reflexivity.
  - lia.
  - reflexivity.
  - apply (bool_decide_unpack _). vm_compute. exact I.
  - apply (bool_decide_unpack _). vm_compute. exact I.
Defined.

End RsvpClaims.

(* ===================================================================== *)
(** ** The resident profile update *)
(* ===================================================================== *)

Section ResidentUpdate.

Import ResponseHandler ResidentController Props.

Lemma set_if_lookup_ne (k k' : string) (v : jsval) (d : gmap string jsval) :
  k ≠ k' → set_if k v d !! k' = d !! k'.
Proof.
  intros Hne. unfold set_if. destruct (truthy v); [|reflexivity].
  apply lookup_insert_ne, Hne.
Qed.

Lemma role_not_writable (u : ReqUser) : "role" ∉ writable u.
Proof.
  unfold writable. destruct (is_admin u); simpl;
    repeat (apply not_elem_of_cons; split; [discriminate|]);
    apply not_elem_of_nil.
Qed.

(** [updateData] never holds a field outside the writable ones. *)
Lemma updateData_of_outside (env : Env) (u : ReqUser) (b : gmap string jsval)
    (k : string) :
  k ∉ writable u → updateData_of env u b !! k = None.
Proof.
  unfold writable, updateData_of. intros Hk.
  destruct (is_admin u); simpl in Hk;
    repeat (apply not_elem_of_cons in Hk as [? Hk]);
    repeat (rewrite set_if_lookup_ne by congruence);
    apply lookup_singleton_ne; congruence.
Qed.

(** A [role] field in the body is not read. *)
Lemma updateData_of_body_role (env : Env) (u : ReqUser) (b : gmap string jsval)
    (v : jsval) :
  updateData_of env u (<["role" := v]> b) = updateData_of env u b.
Proof.
  unfold updateData_of, prop.
  rewrite !lookup_insert_ne by discriminate. reflexivity.
Qed.

Lemma updateResident_forbidden (env : Env) (db : Db) (req : Request) (u : ReqUser) :
  user req = Some u → is_admin u = false → uid u ≠ params_id req →
  updateResident env db req =
    (db, errorResponse env 0 403 "Not authorized to update this resident profile" JNull).
Proof.
  intros Hu Ha Hne. unfold updateResident. rewrite Hu, Ha.
  destruct (String.eqb_spec (uid u) (params_id req)); [contradiction|reflexivity].
Qed.

(** Either nothing is written, or the one addressed record receives
    [updateData]. *)
Lemma updateResident_cases (env : Env) (db : Db) (req : Request) (u : ReqUser) :
  user req = Some u →
  fst (updateResident env db req) = db ∨
  ∃ doc, users db !! params_id req = Some doc ∧
    (is_admin u = true ∨ uid u = params_id req) ∧
    updateResident env db req =
      ({| users := <[params_id req := updateData_of env u (body req) ∪ doc]> (users db);
          events := events db |},
       successResponse env 1 200 "Resident updated successfully" JNull).
Proof.
  intros Hu. unfold updateResident. rewrite Hu.
  destruct (negb (is_admin u) && negb (String.eqb (uid u) (params_id req))) eqn:Hg;
    [left; reflexivity|].
  unfold users_update.
  destruct (users db !! params_id req) as [doc|] eqn:Hdoc; [|left; reflexivity].
  right. exists doc. split; [reflexivity|]. split; [|reflexivity].
  apply andb_false_iff in Hg as [Hg | Hg]; apply negb_false_iff in Hg.
  - left. exact Hg.
  - right. apply String.eqb_eq, Hg.
Qed.

Lemma updateResident_body_role (env : Env) (db : Db) (req : Request) (v : jsval) :
  updateResident env db (with_body_field "role" v req) = updateResident env db req.
Proof.
  unfold updateResident, with_body_field. simpl.
  destruct (user req); [|reflexivity].
  rewrite updateData_of_body_role. reflexivity.
Qed.

(** C6: a requester who is neither admin nor the addressed resident is
    answered 403 and nothing is written.  In every case the update leaves
    the events and every other user record alone, and within a record only
    the writable fields ([updatedAt], [displayName], [phoneNumber], and for
    an admin [flatNumber], [blockNumber]) can differ afterwards; [role] is
    not among them.  A requester updating their own existing record is
    answered 200, and a [role] field in the body changes nothing at all. *)
Theorem updateResident_frame
    (env : Env) (db : Db) (req : Request) (u : ReqUser) (v : jsval) :
  user req = Some u →
  (is_admin u = false → uid u ≠ params_id req →
   updateResident env db req =
     (db, errorResponse env 0 403 "Not authorized to update this resident profile" JNull)) ∧
  events (fst (updateResident env db req)) = events db ∧
  (∀ id, id ≠ params_id req →
     users (fst (updateResident env db req)) !! id = users db !! id) ∧
  (∀ doc, users db !! params_id req = Some doc →
     ∃ doc', users (fst (updateResident env db req)) !! params_id req = Some doc' ∧
             ∀ k, k ∉ writable u → doc' !! k = doc !! k) ∧
  ("role" ∉ writable u) ∧
  (uid u = params_id req → is_Some (users db !! params_id req) →
   status (snd (updateResident env db req)) = 200) ∧
  updateResident env db (with_body_field "role" v req) = updateResident env db req.
Proof.
  intros Hu.
  split; [intros; apply (updateResident_forbidden env db req u); assumption|].
  destruct (updateResident_cases env db req u Hu) as [Hsame | (doc & Hdoc & Hwho & Hupd)].
  - rewrite Hsame. split; [reflexivity|]. split; [reflexivity|].
    split; [intros doc Hdoc; exists doc; split; [exact Hdoc|reflexivity]|].
    split; [apply role_not_writable|].
    split.
    + intros Hown [doc Hdoc]. unfold updateResident. rewrite Hu.
      rewrite Hown, String.eqb_refl, andb_false_r.
      revert Hsame. unfold updateResident. rewrite Hu.
      rewrite Hown, String.eqb_refl, andb_false_r.
      unfold users_update. rewrite Hdoc. simpl. reflexivity.
    + apply updateResident_body_role.
  - rewrite Hupd. simpl.
    split; [reflexivity|].
    split; [intros id Hne; apply lookup_insert_ne; congruence|].
    split.
    { intros doc0 Hdoc0. rewrite Hdoc in Hdoc0. injection Hdoc0 as <-.
      eexists. split; [apply lookup_insert_eq|].
      intros k Hk. apply lookup_union_r, updateData_of_outside, Hk. }
    split; [apply role_not_writable|].
    split; [reflexivity|].
    rewrite <- Hupd. apply updateResident_body_role.
Qed.

End ResidentUpdate.

Section ResidentUpdateWitness.

Import ResponseHandler ResidentController Props.

Lemma updateResident_frame_witness :
  updateResident Samples.production Samples.db0
    (with_body_field "role" (JStr "admin")
       (request_as "u1" (Samples.usr "u2" "resident"))) =
  (Samples.db0,
   errorResponse Samples.production 0 403
     "Not authorized to update this resident profile" JNull).
Proof.
  refine (proj1 (updateResident_frame Samples.production Samples.db0
                   (with_body_field "role" (JStr "admin")
                      (request_as "u1" (Samples.usr "u2" "resident")))
                   (Samples.usr "u2" "resident") JNull _) _ _).
  - reflexivity.
  - reflexivity.
  - discriminate.
Defined.

(** A resident renaming themselves while also sending [role: 'admin']:
    the name is stored, the role stays [resident]. *)
Example self_update_keeps_role :
  let req := {| authorization := None; params_id := "u1";
                body := <["name" := JStr "New Name"]> (<["role" := JStr "admin"]> ∅);
                user := Some (Samples.usr "u1" "resident") |} in
  let r := updateResident Samples.production Samples.db0 req in
  status (snd r) = 200 ∧
  (users (fst r) !! "u1" ≫= (λ doc, doc !! "role")) = Some (JStr "resident") ∧
  (users (fst r) !! "u1" ≫= (λ doc, doc !! "displayName")) = Some (JStr "New Name").
Proof. vm_compute. repeat split. Qed.

End ResidentUpdateWitness.

(* ===================================================================== *)
(** ** Response envelopes *)
(* ===================================================================== *)

Section Envelopes.

Import Auth AuthMiddleware Routes Props ResponseHandler.

Lemma default_null_defined (v : jsval) : default_null v ≠ JUndefined.
Proof. destruct v; discriminate. Qed.

Lemma successResponse_envelope (env : Env) (k : nat) (code : Z) (m : string) (d : jsval) :
  success_envelope env (successResponse env k code m d).
Proof.
  unfold success_envelope, has_message, present, has_timestamp, successResponse.
  simpl. split; [apply lookup_insert_eq|].
  split; [exists m; rewrite lookup_insert_ne by discriminate; apply lookup_insert_eq|].
  split.
  - exists (default_null d). split; [|exact (default_null_defined d)].
    rewrite !lookup_insert_ne by discriminate. apply lookup_insert_eq.
  - exists k. rewrite !lookup_insert_ne by discriminate. apply lookup_insert_eq.
Qed.

Lemma errorResponse_envelope (env : Env) (k : nat) (code : Z) (m : string) (e : jsval) :
  error_envelope env (errorResponse env k code m e).
Proof.
  unfold error_envelope, has_message, has_timestamp, errorResponse.
  simpl. split; [apply lookup_insert_eq|].
  split; [exists m; rewrite lookup_insert_ne by discriminate; apply lookup_insert_eq|].
  exists k. rewrite !lookup_insert_ne by discriminate. apply lookup_insert_eq.
Qed.

Lemma errors_envelope (env : Env) (k : nat) (code : Z) (m : string) (e : jsval) :
  error_envelope env (ErrorHandler.errorResponse env k code m e).
Proof.
  unfold error_envelope, has_message, has_timestamp, ErrorHandler.errorResponse.
  simpl. split; [apply lookup_insert_eq|].
  split; [exists m; rewrite lookup_insert_ne by discriminate; apply lookup_insert_eq|].
  exists k. rewrite !lookup_insert_ne by discriminate. apply lookup_insert_eq.
Qed.

Lemma deny_bare (code : Z) (m : string) : bare_error (deny code m).
Proof.
  unfold bare_error, has_message, deny. simpl.
  split; [apply lookup_insert_eq|].
  split; [exists m; rewrite lookup_insert_ne by discriminate; apply lookup_insert_eq|].
  rewrite !lookup_insert_ne by discriminate. apply lookup_empty.
Qed.

Lemma bare_not_uniform (env : Env) (r : Response) :
  bare_error r → ¬ uniform_envelope env r.
Proof.
  intros (_ & _ & Hno) [(_ & _ & _ & k & Hk) | (_ & _ & k & Hk)];
    rewrite Hno in Hk; discriminate Hk.
Qed.

Local Ltac envelope :=
  cbn [snd];
  lazymatch goal with
  | |- uniform_envelope _ (successResponse _ _ _ _ _) =>
      left; apply successResponse_envelope
  | |- uniform_envelope _ (errorResponse _ _ _ _ _) =>
      right; apply errorResponse_envelope
  end.

Lemma rsvpToEvent_envelope (env : Env) (db : Db) (req : Request) :
  uniform_envelope env (snd (EventController.rsvpToEvent env db req)).
Proof.
  unfold EventController.rsvpToEvent.
  destruct (user req) as [u|]; [|envelope].
  destruct (events db !! params_id req) as [ev|]; [|envelope].
  cbn zeta.
  destruct (EventController.includes _ _); [envelope|].
  destruct (EventController.max_reached _ _); [envelope|].
  destruct (events_update _ _ _ _); envelope.
Qed.

Lemma cancelRsvp_envelope (env : Env) (db : Db) (req : Request) :
  uniform_envelope env (snd (EventController.cancelRsvp env db req)).
Proof.
  unfold EventController.cancelRsvp.
  destruct (user req) as [u|]; [|envelope].
  destruct (events db !! params_id req) as [ev|]; [|envelope].
  cbn zeta.
  destruct (negb _); [envelope|].
  destruct (events_update _ _ _ _); envelope.
Qed.

Lemma updateResident_envelope (env : Env) (db : Db) (req : Request) :
  uniform_envelope env (snd (ResidentController.updateResident env db req)).
Proof.
  unfold ResidentController.updateResident.
  destruct (user req) as [u|]; [|envelope].
  cbn zeta.
  destruct (_ && _); [envelope|].
  destruct (users db !! params_id req) as [doc|]; [|envelope].
  destruct (users_update _ _ _); envelope.
Qed.

Local Ltac bare :=
  unfold bare_if_sent; cbn [sent];
  lazymatch goal with
  | |- True => exact I
  | |- bare_error (deny _ _) => apply deny_bare
  end.

Lemma verifyAuth_bare (env : Env) (p : Provider) (req : Request) :
  bare_if_sent (verifyAuth env p req).
Proof.
  unfold verifyAuth.
  destruct (no_bearer _); [bare|].
  destruct (bearer_token _) as [token|]; [|bare].
  destruct (dev_bypass env token); [bare|].
  destruct (p token); bare.
Qed.

Lemma authenticateUser_bare (p : Provider) (req : Request) :
  bare_if_sent (authenticateUser p req).
Proof.
  unfold authenticateUser.
  destruct (no_bearer _); [bare|].
  destruct (bearer_token _) as [token|]; [|bare].
  destruct (p token); bare.
Qed.

Lemma verifyAdmin_bare (req : Request) : bare_if_sent (verifyAdmin req).
Proof.
  unfold verifyAdmin.
  destruct (user req) as [u|]; [|bare].
  destruct (not_admin u); bare.
Qed.

Lemma requireAdmin_bare (req : Request) : bare_if_sent (requireAdmin req).
Proof.
  unfold requireAdmin.
  destruct (user req) as [u|]; [|bare].
  destruct (not_admin_or_super u); bare.
Qed.

(** C7, as stated, fails: the 401 that [verifyAuth] sends for a request
    without Authorization header has no [timestamp] field. *)
Lemma middleware_envelope_counterexample :
  ¬ uniform_if_sent Samples.production
      (verifyAuth Samples.production Samples.provider (Samples.with_header None)).
Proof.
  unfold uniform_if_sent. simpl. apply bare_not_uniform, deny_bare.
Qed.

(** C7, amended: every response built by [successResponse] carries
    [success: true], a message, a [data] field and a timestamp read from
    the clock; every response built by [errorResponse] carries
    [success: false], a message and such a timestamp; the controllers
    answer with nothing else.  The responses which the authentication and
    admin middlewares send themselves carry [success: false] and a message
    but no timestamp. *)
Theorem response_envelopes
    (env : Env) (p : Provider) (db : Db) (req : Request)
    (k : nat) (code : Z) (m : string) (d : jsval) :
  success_envelope env (successResponse env k code m d) ∧
  error_envelope env (errorResponse env k code m d) ∧
  error_envelope env (ErrorHandler.errorResponse env k code m d) ∧
  uniform_envelope env (snd (EventController.rsvpToEvent env db req)) ∧
  uniform_envelope env (snd (EventController.cancelRsvp env db req)) ∧
  uniform_envelope env (snd (ResidentController.updateResident env db req)) ∧
  bare_if_sent (verifyAuth env p req) ∧
  bare_if_sent (verifyAdmin req) ∧
  bare_if_sent (authenticateUser p req) ∧
  bare_if_sent (requireAdmin req).
Proof.
  split; [apply successResponse_envelope|].
  split; [apply errorResponse_envelope|].
  split; [apply errors_envelope|].
  split; [apply rsvpToEvent_envelope|].
  split; [apply cancelRsvp_envelope|].
  split; [apply updateResident_envelope|].
  split; [apply verifyAuth_bare|].
  split; [apply verifyAdmin_bare|].
  split; [apply authenticateUser_bare|apply requireAdmin_bare].
Qed.

End Envelopes.

(* ===================================================================== *)
(** ** The client session bridge *)
(* ===================================================================== *)

Section SessionBridge.

Import AuthContext Props.

Local Open Scope list_scope.

Lemma trace_app (s : State) (a b : list Action) :
  trace s (a ++ b) = trace s a ++ trace (run_actions s a) b.
Proof.
  revert s. induction a as [|x a IH]; intros s; [reflexivity|].
  simpl. rewrite IH. reflexivity.
Qed.

(** The states observed for a sign-in event begin with the pre-merge
    states, whatever [/auth/me] answers afterwards. *)
Lemma sign_in_trace (u : FirebaseUser) (idToken : string) (me : MeResult) :
  trace initial (fst (onAuthStateChanged (Some u) (Some idToken) me)) =
  pre_merge_trace u idToken ++
  trace (run_actions initial (setFirebaseUser (Some u) :: fetch_until_me u idToken))
        (fetch_after_me me ++ [setLoading false]).
Proof.
  unfold pre_merge_trace, onAuthStateChanged, fetchBackendUserData.
  cbn [fst snd].
  change (setFirebaseUser (Some u)
            :: (fetch_until_me u idToken ++ fetch_after_me me) ++ [setLoading false])
    with ((setFirebaseUser (Some u) :: fetch_until_me u idToken)
            ++ (fetch_after_me me ++ [setLoading false])).
  - apply trace_app.
Qed.

Lemma default_user_role (u : FirebaseUser) :
  default_user u !! "role" = Some (JStr "resident").
Proof.
  unfold default_user.
  rewrite !lookup_insert_ne by discriminate. apply lookup_insert_eq.
Qed.

(** C9, as stated, fails: right after the token is stored the bridge
    exposes a user with the default role [resident], while [loading] is
    still true and [/auth/me] has not been called yet. *)
Lemma session_bridge_counterexample :
  ¬ no_role_while_loading (pre_merge_trace Samples.fb_user "id-token").
Proof.
  intros H.
  destruct (H (run_actions initial
                 (setFirebaseUser (Some Samples.fb_user)
                    :: fetch_until_me Samples.fb_user "id-token"))) as [Hres _].
  - unfold pre_merge_trace. simpl.
    do 3 apply list_elem_of_further. apply list_elem_of_here.
  - reflexivity.
  - apply Hres. simpl. unfold exposed_role. simpl. apply default_user_role.
Qed.

(** C9, amended: on the first sign-in, every state observed before the
    answer of [/auth/me] has [loading = true] and exposes either no user or
    a user whose role is the default [resident]; the default-role user is
    indeed exposed in that window, and the role [admin] never is. *)
Theorem default_role_while_loading
    (u : FirebaseUser) (idToken : string) (s : State) :
  s ∈ pre_merge_trace u idToken →
  loading s = true ∧
  (currentUser s = None ∨ exposed_role s = Some (JStr "resident")) ∧
  exposed_role s ≠ Some (JStr "admin") ∧
  ∃ s', s' ∈ pre_merge_trace u idToken ∧ loading s' = true ∧
        exposed_role s' = Some (JStr "resident").
Proof.
  intros Hs.
  assert (∃ s', s' ∈ pre_merge_trace u idToken ∧ loading s' = true ∧
                exposed_role s' = Some (JStr "resident")) as Hex.
  { eexists. split; [|split].
    - unfold pre_merge_trace. simpl.
      do 3 apply list_elem_of_further. apply list_elem_of_here.
    - reflexivity.
    - unfold exposed_role. simpl. apply default_user_role. }
  unfold pre_merge_trace in Hs. simpl in Hs.
  repeat (apply elem_of_cons in Hs as [-> | Hs]);
    [ | | | | inversion Hs ];
    (split; [reflexivity|]); (split; [|split; [|exact Hex]]);
    unfold exposed_role; simpl;
    try rewrite default_user_role;
    first [ left; reflexivity | right; reflexivity | discriminate ].
Qed.

Lemma default_role_while_loading_witness :
  loading (run_actions initial
             (setFirebaseUser (Some Samples.fb_user)
                :: fetch_until_me Samples.fb_user "id-token")) = true.
Proof.
  refine (proj1 (default_role_while_loading Samples.fb_user "id-token" _ _)).
  unfold pre_merge_trace. simpl.
  do 3 apply list_elem_of_further. apply list_elem_of_here.
Defined.

End SessionBridge.

(* ===================================================================== *)
(** ** Further properties of RSVP, cancellation and event deletion *)
(* ===================================================================== *)

Section RsvpMore.

Import ResponseHandler EventController ResidentCrud Props More.

Local Open Scope list_scope.

Lemma filter_out_snoc (u : string) (l : list string) :
  u ∉ l → filter (λ x, x ≠ u) (l ++ [u]) = l.
Proof.
  intros Hu. rewrite filter_app.
  rewrite (filter_cons _ u []).
  destruct (decide (u ≠ u)) as [Hc|_]; [congruence|].
  rewrite filter_nil, app_nil_r.
  induction l as [|y l IH]; [reflexivity|].
  apply not_elem_of_cons in Hu as [Hy Hl].
  rewrite filter_cons. destruct (decide (y ≠ u)) as [_|Hc].
  - f_equal. apply IH, Hl.
  - apply dec_stable in Hc. congruence.
Qed.

Lemma not_in_filter_out (u : string) (l : list string) :
  u ∉ filter (λ x, x ≠ u) l.
Proof. intros H. apply list_elem_of_filter in H as [H _]. congruence. Qed.

Lemma cancel_not_attending (env : Env) (db : Db) (req : Request) (u : ReqUser) (ev : Event) :
  user req = Some u →
  events db !! params_id req = Some ev →
  uid u ∉ default [] (attendees ev) →
  cancelRsvp env db req =
    (db, errorResponse env 0 400 "You have not RSVP'd to this event" JNull).
Proof.
  intros Hu Hev Hin. unfold cancelRsvp. rewrite Hu, Hev. simpl.
  apply includes_false in Hin. rewrite Hin. reflexivity.
Qed.

(** X1: a cancellation by a user who is not in the attendee list of an
    existing event is answered with status 400, and neither the event nor
    anything else in the database is written. *)
Theorem cancel_without_rsvp_rejected
    (env : Env) (db : Db) (req : Request) (u : ReqUser) (ev : Event) :
  user req = Some u →
  events db !! params_id req = Some ev →
  uid u ∉ default [] (attendees ev) →
  fst (cancelRsvp env db req) = db ∧
  status (snd (cancelRsvp env db req)) = 400 ∧
  json (snd (cancelRsvp env db req)) !! "message" =
    Some (JStr "You have not RSVP'd to this event").
Proof.
  intros Hu Hev Hin.
  rewrite (cancel_not_attending env db req u ev Hu Hev Hin).
  repeat split.
Qed.

Lemma cancel_without_rsvp_rejected_witness :
  fst (cancelRsvp Samples.production Samples.db0
         (request_as "e1" (Samples.usr "u3" "resident"))) = Samples.db0.
Proof.
  refine (proj1 (cancel_without_rsvp_rejected Samples.production Samples.db0
                   (request_as "e1" (Samples.usr "u3" "resident"))
                   (Samples.usr "u3" "resident") Samples.bbq _ _ _)).
  - reflexivity.
  - reflexivity.
  - apply (bool_decide_unpack _). vm_compute. exact I.
Defined.

(** X2: an accepted RSVP followed by the same user's cancellation gives
    back the attendee list as it was: both calls are answered 200, the
    users are untouched, and the event differs from the original one only
    in [updatedAt] (and in an absent attendee list now being stored as the
    same list). *)
Theorem rsvp_then_cancel_restores
    (e1 e2 : Env) (db : Db) (req : Request) (u : ReqUser) (ev : Event) :
  user req = Some u →
  events db !! params_id req = Some ev →
  uid u ∉ default [] (attendees ev) →
  max_reached ev (default [] (attendees ev)) = false →
  let r1 := rsvpToEvent e1 db req in
  let r2 := cancelRsvp e2 (fst r1) req in
  status (snd r1) = 200 ∧ status (snd r2) = 200 ∧
  attendees_of (fst r2) (params_id req) = Some (default [] (attendees ev)) ∧
  users (fst r2) = users db ∧
  events (fst r2) =
    <[params_id req := set_attendees ev (default [] (attendees ev)) (isoNow e2 0)]>
      (events db).
Proof.
  intros Hu Hev Hin Hmax. cbn zeta.
  destruct (rsvp_success e1 db req u ev Hu Hev Hin Hmax) as (db1 & Hr & Hus1 & He1).
  rewrite Hr. cbn [fst snd].
  set (l := default [] (attendees ev)) in *.
  set (ev1 := set_attendees ev (l ++ [uid u]) (isoNow e1 0)) in *.
  assert (events db1 !! params_id req = Some ev1) as Hev1
    by (rewrite He1; apply lookup_insert_eq).
  destruct (cancel_success e2 db1 req u ev1 Hu Hev1) as (db2 & Hc & Hus2 & He2).
  { simpl. apply elem_of_app. right. apply list_elem_of_singleton. reflexivity. }
  rewrite Hc. cbn [fst snd]. simpl in He2.
  rewrite filter_out_snoc in He2 by exact Hin.
  split; [reflexivity|]. split; [reflexivity|].
  split; [unfold attendees_of; rewrite He2, lookup_insert_eq; reflexivity|].
  split; [congruence|].
  rewrite He2, He1, insert_insert_eq. reflexivity.
Qed.

Lemma rsvp_then_cancel_restores_witness :
  attendees_of
    (fst (cancelRsvp Samples.production
            (fst (rsvpToEvent Samples.production Samples.db_new
                    (request_as "e1" (Samples.usr "u3" "resident"))))
            (request_as "e1" (Samples.usr "u3" "resident")))) "e1" = Some [].
Proof.
  refine (proj1 (proj2 (proj2
            (rsvp_then_cancel_restores Samples.production Samples.production
               Samples.db_new (request_as "e1" (Samples.usr "u3" "resident"))
               (Samples.usr "u3" "resident")
               (set_attendees Samples.bbq [] "2024-12-01T00:00:00.000Z") _ _ _ _)))).
  - reflexivity.
  - reflexivity.
  - apply (bool_decide_unpack _). vm_compute. exact I.
  - reflexivity.
Defined.

(** X3: an accepted cancellation removes the user from the attendee list
    altogether and keeps the other attendees in their order; the same
    user's next cancellation is answered 400 and writes nothing. *)
Theorem cancel_not_repeatable
    (e1 e2 : Env) (db : Db) (req : Request) (u : ReqUser) (ev : Event) :
  user req = Some u →
  events db !! params_id req = Some ev →
  uid u ∈ default [] (attendees ev) →
  let db1 := fst (cancelRsvp e1 db req) in
  attendees_of db1 (params_id req) =
    Some (filter (λ x, x ≠ uid u) (default [] (attendees ev))) ∧
  (∀ l, attendees_of db1 (params_id req) = Some l → uid u ∉ l) ∧
  cancelRsvp e2 db1 req =
    (db1, errorResponse e2 0 400 "You have not RSVP'd to this event" JNull).
Proof.
  intros Hu Hev Hin. cbn zeta.
  destruct (cancel_success e1 db req u ev Hu Hev Hin) as (db1 & Hc & _ & He1).
  rewrite Hc. cbn [fst].
  assert (events db1 !! params_id req =
          Some (set_attendees ev (filter (λ x, x ≠ uid u) (default [] (attendees ev)))
                  (isoNow e1 0))) as Hev1
    by (rewrite He1; apply lookup_insert_eq).
  assert (attendees_of db1 (params_id req) =
          Some (filter (λ x, x ≠ uid u) (default [] (attendees ev)))) as Hatt
    by (unfold attendees_of; rewrite Hev1; reflexivity).
  split; [exact Hatt|]. split.
  - intros l Hl. rewrite Hatt in Hl. injection Hl as <-. apply not_in_filter_out.
  - apply (cancel_not_attending e2 db1 req u _ Hu Hev1). simpl.
    apply not_in_filter_out.
Qed.

Lemma cancel_not_repeatable_witness :
  attendees_of
    (fst (cancelRsvp Samples.production Samples.db0
            (request_as "e1" (Samples.usr "u1" "resident")))) "e1" = Some ["u2"].
Proof.
  refine (proj1 (cancel_not_repeatable Samples.production Samples.production
                   Samples.db0 (request_as "e1" (Samples.usr "u1" "resident"))
                   (Samples.usr "u1" "resident") Samples.bbq _ _ _)).
  - reflexivity.
  - reflexivity.
  - apply (bool_decide_unpack _). vm_compute. exact I.
Defined.

(** X4: an event without cap, or with the cap 0, takes every RSVP of a
    user not yet in the list, however long the list is: a cap of 0 does
    not close the event. *)
Theorem rsvp_uncapped
    (env : Env) (db : Db) (req : Request) (u : ReqUser) (ev : Event) :
  user req = Some u →
  events db !! params_id req = Some ev →
  maxAttendees ev = None ∨ maxAttendees ev = Some 0 →
  uid u ∉ default [] (attendees ev) →
  status (snd (rsvpToEvent env db req)) = 200 ∧
  attendees_of (fst (rsvpToEvent env db req)) (params_id req) =
    Some (default [] (attendees ev) ++ [uid u]).
Proof.
  intros Hu Hev Hcap Hin.
  assert (max_reached ev (default [] (attendees ev)) = false) as Hmax
    by (unfold max_reached; destruct Hcap as [-> | ->]; reflexivity).
  destruct (rsvp_success env db req u ev Hu Hev Hin Hmax) as (db1 & Hr & _ & He1).
  rewrite Hr. cbn [fst snd]. split; [reflexivity|].
  unfold attendees_of. rewrite He1, lookup_insert_eq. reflexivity.
Qed.

Lemma rsvp_uncapped_witness :
  status (snd (rsvpToEvent Samples.production db_open
                 (request_as "e2" (Samples.usr "u3" "resident")))) = 200.
Proof.
  refine (proj1 (rsvp_uncapped Samples.production db_open
                   (request_as "e2" (Samples.usr "u3" "resident"))
                   (Samples.usr "u3" "resident") open_house _ _ _ _)).
  - reflexivity.
  - reflexivity.
  - right. reflexivity.
  - apply (bool_decide_unpack _). vm_compute. exact I.
Defined.

(** What one call can do to the database. *)
Lemma call_cases (db : Db) (c : RsvpCall) :
  call db c = db ∨
  ∃ id ev l t, events db !! id = Some ev ∧
    users (call db c) = users db ∧
    events (call db c) = <[id := set_attendees ev l t]> (events db) ∧
    ((∃ x, (x ∉ default [] (attendees ev)) ∧ l = default [] (attendees ev) ++ [x] ∧
           max_reached ev (default [] (attendees ev)) = false) ∨
     (∃ x, l = filter (λ y, y ≠ x) (default [] (attendees ev)))).
Proof.
  destruct c as [env req | env req]; simpl.
  - destruct (user req) as [u|] eqn:Hu;
      [|left; unfold rsvpToEvent; rewrite Hu; reflexivity].
    destruct (events db !! params_id req) as [ev|] eqn:Hev;
      [|left; unfold rsvpToEvent; rewrite Hu, Hev; reflexivity].
    destruct (decide (uid u ∈ default [] (attendees ev))) as [Hin|Hin].
    { left. rewrite (rsvp_duplicate env db req u ev Hu Hev Hin). reflexivity. }
    destruct (max_reached ev (default [] (attendees ev))) eqn:Hmax.
    { left. rewrite (rsvp_full env db req u ev Hu Hev Hin Hmax). reflexivity. }
    right. destruct (rsvp_success env db req u ev Hu Hev Hin Hmax) as (db' & -> & Hus & He).
    exists (params_id req), ev, (default [] (attendees ev) ++ [uid u]), (isoNow env 0).
    cbn [fst]. repeat split; try assumption. left. eauto.
  - destruct (user req) as [u|] eqn:Hu;
      [|left; unfold cancelRsvp; rewrite Hu; reflexivity].
    destruct (events db !! params_id req) as [ev|] eqn:Hev;
      [|left; unfold cancelRsvp; rewrite Hu, Hev; reflexivity].
    destruct (decide (uid u ∈ default [] (attendees ev))) as [Hin|Hin].
    + right. destruct (cancel_success env db req u ev Hu Hev Hin) as (db' & -> & Hus & He).
      exists (params_id req), ev,
        (filter (λ y, y ≠ uid u) (default [] (attendees ev))), (isoNow env 0).
      cbn [fst]. repeat split; try assumption. right. eauto.
    + left. rewrite (cancel_not_attending env db req u ev Hu Hev Hin). reflexivity.
Qed.

Lemma call_keeps_invariants (db : Db) (c : RsvpCall) :
  attendees_distinct db ∧ within_capacity db →
  attendees_distinct (call db c) ∧ within_capacity (call db c).
Proof.
  intros [Hd Hc].
  destruct (call_cases db c) as [-> | (id & ev & l & t & Hev & _ & He & Hl)];
    [split; assumption|].
  assert (NoDup (default [] (attendees ev))) as Hnd
    by (apply (default_attendees_distinct db id); assumption).
  assert (NoDup l ∧
          ∀ N, maxAttendees ev = Some N → 1 ≤ N → Z.of_nat (length l) ≤ N) as [Hndl Hcapl].
  { destruct Hl as [(x & Hx & -> & Hmax) | (x & ->)].
    - split.
      + apply NoDup_app. split; [exact Hnd|]. split; [|apply NoDup_singleton].
        intros y Hy Hy'. apply list_elem_of_singleton in Hy'. congruence.
      + intros N HN Hpos. rewrite (max_reached_cap ev _ N HN Hpos) in Hmax.
        apply Z.leb_gt in Hmax. rewrite length_app. simpl. lia.
    - split; [apply NoDup_filter, Hnd|].
      intros N HN Hpos. specialize (Hc id ev N Hev HN Hpos).
      pose proof (length_filter (λ y, y ≠ x) (default [] (attendees ev))). lia. }
  split.
  - intros id' l'. rewrite (attendees_of_insert db _ id id' ev l t He).
    destruct (decide (id = id')); [intros [= <-]; exact Hndl | apply Hd].
  - intros id' ev' N. rewrite He.
    destruct (decide (id = id')) as [<-|Hne].
    + rewrite lookup_insert_eq. intros [= <-]. simpl. apply Hcapl.
    + rewrite lookup_insert_ne by exact Hne. apply Hc.
Qed.

(** X5: whatever sequence of RSVP and cancellation requests is served,
    one after the other, attendee lists that were free of duplicates stay
    so, and no event with a positive cap that was within its cap ends up
    with more attendees than the cap. *)
Theorem rsvp_calls_keep_invariants (db : Db) (cs : list RsvpCall) :
  attendees_distinct db ∧ within_capacity db →
  attendees_distinct (calls db cs) ∧ within_capacity (calls db cs).
Proof.
  revert db. induction cs as [|c cs IH]; intros db H; [exact H|].
  simpl. apply IH, call_keeps_invariants, H.
Qed.

Lemma db_new_invariants : attendees_distinct Samples.db_new ∧ within_capacity Samples.db_new.
Proof.
  split.
  - intros id l. unfold attendees_of. simpl.
    destruct (decide (id = "e1")) as [->|Hne].
    + rewrite lookup_singleton_eq. simpl. intros [= <-]. apply NoDup_nil_2.
    + rewrite lookup_singleton_ne by congruence. discriminate.
  - intros id ev N. simpl.
    destruct (decide (id = "e1")) as [->|Hne].
    + rewrite lookup_singleton_eq. intros [= <-]. simpl. intros [= <-] _. lia.
    + rewrite lookup_singleton_ne by congruence. discriminate.
Qed.

Lemma rsvp_calls_keep_invariants_witness :
  attendees_distinct
    (calls Samples.db_new
       [Rsvp Samples.production (request_as "e1" (Samples.usr "u1" "resident"));
        Rsvp Samples.production (request_as "e1" (Samples.usr "u1" "resident"));
        Cancel Samples.production (request_as "e1" (Samples.usr "u1" "resident"))]).
Proof.
  refine (proj1 (rsvp_calls_keep_invariants Samples.db_new _ _)).
  exact db_new_invariants.
Defined.

(** X6: an RSVP or a cancellation writes nothing but the [attendees] and
    [updatedAt] fields of the addressed event: the users are untouched, no
    event appears or disappears, and every event keeps all its other
    fields (the cap among them). *)
Theorem rsvp_call_frame (db : Db) (c : RsvpCall) :
  users (call db c) = users db ∧
  (∀ id, events db !! id = None → events (call db c) !! id = None) ∧
  (∀ id ev, events db !! id = Some ev →
     ∃ ev', events (call db c) !! id = Some ev' ∧ same_but_attendees ev ev' ∧
            maxAttendees ev' = maxAttendees ev).
Proof.
  destruct (call_cases db c) as [-> | (id & ev & l & t & Hev & Hus & He & _)].
  - split; [reflexivity|]. split; [auto|].
    intros id ev Hev. exists ev. repeat split. exact Hev.
  - split; [exact Hus|]. rewrite He. split.
    + intros id' Hnone. rewrite lookup_insert_ne by congruence. exact Hnone.
    + intros id' ev' Hev'. destruct (decide (id = id')) as [<-|Hne].
      * rewrite lookup_insert_eq. eexists. split; [reflexivity|].
        rewrite Hev in Hev'. injection Hev' as <-. split; reflexivity.
      * rewrite lookup_insert_ne by exact Hne. exists ev'. repeat split. exact Hev'.
Qed.

(** X7: deleting an existing event is answered 200 and removes that event
    only; afterwards an RSVP for it, a cancellation and a second deletion
    are all answered 404 and write nothing. *)
Theorem deleteEvent_then_not_found
    (e1 e2 : Env) (db : Db) (req req' : Request) (ev : Event) :
  events db !! params_id req = Some ev →
  params_id req' = params_id req →
  let r := deleteEvent e1 db req in
  status (snd r) = 200 ∧
  users (fst r) = users db ∧
  events (fst r) = delete (params_id req) (events db) ∧
  (is_Some (user req') →
   rsvpToEvent e2 (fst r) req' = (fst r, errorResponse e2 0 404 "Event not found" JNull) ∧
   cancelRsvp e2 (fst r) req' = (fst r, errorResponse e2 0 404 "Event not found" JNull)) ∧
  deleteEvent e2 (fst r) req' = (fst r, errorResponse e2 0 404 "Event not found" JNull).
Proof.
  intros Hev Hid. cbn zeta.
  assert (deleteEvent e1 db req =
          ({| users := users db; events := delete (params_id req) (events db) |},
           successResponse e1 0 200 "Event deleted successfully" JNull)) as ->
    by (unfold deleteEvent; rewrite Hev; reflexivity).
  cbn [fst snd].
  set (db1 := {| users := users db; events := delete (params_id req) (events db) |}).
  assert (events db1 !! params_id req' = None) as Hnone
    by (rewrite Hid; apply lookup_delete_eq).
  split; [reflexivity|]. split; [reflexivity|]. split; [reflexivity|].
  split.
  - intros [u Hu]. unfold rsvpToEvent, cancelRsvp. rewrite Hu, Hnone.
    split; reflexivity.
  - unfold deleteEvent. rewrite Hnone. reflexivity.
Qed.

Lemma deleteEvent_then_not_found_witness :
  status (snd (deleteEvent Samples.production Samples.db0
                 (request_as "e1" (Samples.usr "u1" "admin")))) = 200.
Proof.
  refine (proj1 (deleteEvent_then_not_found Samples.production Samples.production
                   Samples.db0 (request_as "e1" (Samples.usr "u1" "admin"))
                   (request_as "e1" (Samples.usr "u2" "resident")) Samples.bbq _ _)).
  - reflexivity.
  - reflexivity.
Defined.

End RsvpMore.

Section RsvpFrameWitness.

Import Props More.

Lemma rsvp_call_frame_witness :
  users (call Samples.db0
           (Rsvp Samples.production (request_as "e1" (Samples.usr "u3" "resident")))) =
  users Samples.db0.
Proof.
  exact (proj1 (rsvp_call_frame Samples.db0
                  (Rsvp Samples.production
                     (request_as "e1" (Samples.usr "u3" "resident"))))).
Defined.

End RsvpFrameWitness.

(* ===================================================================== *)
(** ** Further properties of the middleware and of the routes *)
(* ===================================================================== *)

Section RoutesMore.

Import Auth Routes Props More Router ResponseHandler.

Local Open Scope list_scope.

Lemma no_space_split (s : string) : no_space s = true → split " " s = [s].
Proof.
  induction s as [|c s IH]; [reflexivity|].
  simpl. intros H. apply andb_true_iff in H as [Hc Hs].
  apply negb_true_iff in Hc. rewrite Hc, (IH Hs). reflexivity.
Qed.

Lemma digits_no_space (s : string) : digits s = true → no_space s = true.
Proof.
  induction s as [|c s IH]; [reflexivity|].
  simpl. intros H. apply andb_true_iff in H as [Hc Hs].
  rewrite (IH Hs), andb_true_r. apply negb_true_iff.
  destruct (Ascii.eqb_spec c " ") as [->|]; [discriminate Hc|reflexivity].
Qed.

(** The first piece of a split: it has no space, and what follows it in
    the string is nothing or begins with a space. *)
Lemma split_head (s : string) :
  ∃ w rest, split " " s !! 0%nat = Some w ∧ s = (w ++ rest)%string ∧
            no_space w = true ∧ (rest = "" ∨ ∃ r, rest = String " " r).
Proof.
  induction s as [|c s (w & rest & Hw & Hs & Hn & Hr)].
  - exists "", "". repeat split. left. reflexivity.
  - simpl. destruct (Ascii.eqb_spec c " ") as [->|Hc].
    + exists "", (String " " s). repeat split. right. eauto.
    + destruct (split " " s) as [|w' ws]; [discriminate Hw|].
      simpl in Hw. injection Hw as ->.
      exists (String c w), rest. simpl. rewrite Hs at 1.
      repeat split; [|exact Hr].
      rewrite Hn, andb_true_r. apply negb_true_iff, Ascii.eqb_neq, Hc.
Qed.

(** X8: the token taken from a header that starts with [Bearer ] is the
    text up to the next space: it contains no space, and whatever follows
    it in the header (a second space and more) is ignored. *)
Theorem bearer_token_is_first_word (h : string) :
  startsWith h "Bearer " = true →
  ∃ token rest,
    bearer_token h = Some token ∧
    h = ("Bearer " ++ token ++ rest)%string ∧
    no_space token = true ∧
    (rest = "" ∨ ∃ r, rest = String " " r).
Proof.
  intros H. apply startsWith_app in H as [r ->].
  destruct (split_head r) as (w & rest & Hw & Hr & Hn & Hrest).
  exists w, rest. rewrite bearer_token_app. split; [exact Hw|].
  split; [rewrite Hr at 1; reflexivity|]. split; assumption.
Qed.

Lemma bearer_token_is_first_word_witness :
  ∃ token rest,
    bearer_token "Bearer abc def" = Some token ∧
    "Bearer abc def" = ("Bearer " ++ token ++ rest)%string ∧
    no_space token = true ∧
    (rest = "" ∨ ∃ r, rest = String " " r).
Proof.
  apply (bearer_token_is_first_word "Bearer abc def"). reflexivity.
Defined.

Lemma verifyAuth_next (env : Env) (p : Provider) (req req' : Request) :
  verifyAuth env p req = Next req' → ∃ u, req' = set_user req u.
Proof.
  unfold verifyAuth.
  destruct (no_bearer _); [discriminate|].
  destruct (bearer_token _) as [token|]; [|discriminate].
  destruct (dev_bypass env token); [intros [= <-]; eauto|].
  destruct (p token); [discriminate|]. intros [= <-]. eauto.
Qed.

Lemma verifyAuth_send (env : Env) (p : Provider) (req : Request) (res : Response) :
  verifyAuth env p req = Send res →
  (status res = 401 ∨ status res = 403) ∧ bare_error res.
Proof.
  unfold verifyAuth.
  destruct (no_bearer _);
    [intros [= <-]; split; [left; reflexivity|apply deny_bare]|].
  destruct (bearer_token _) as [token|];
    [|intros [= <-]; split; [right; reflexivity|apply deny_bare]].
  destruct (dev_bypass env token); [discriminate|].
  destruct (p token); [|discriminate].
  intros [= <-]. split; [right; reflexivity|apply deny_bare].
Qed.

(** X9: a controller mounted behind [verifyAuth] runs only on a request
    that carries an identity, and that request is the incoming one with
    [user] set and nothing else changed; otherwise the middleware has
    answered 401 or 403 itself and the database is as it was. *)
Theorem authenticated_route_attaches_identity
    (env : Env) (p : Provider) (ctl : Handler) (db : Db) (req : Request) :
  (∃ res, route [verifyAuth env p] ctl db req = (db, res) ∧
          (status res = 401 ∨ status res = 403) ∧ bare_error res) ∨
  (∃ u, verifyAuth env p req = Next (set_user req u) ∧
        route [verifyAuth env p] ctl db req = ctl db (set_user req u)).
Proof.
  simpl. destruct (verifyAuth env p req) as [req'|res] eqn:Hv.
  - right. destruct (verifyAuth_next env p req req' Hv) as [u ->]. eauto.
  - left. exists res. split; [reflexivity|]. apply (verifyAuth_send env p req), Hv.
Qed.





Lemma role_or_user_admin (claim : option string) :
  String.eqb (role_or claim "user") "admin" = true ↔ claim = Some "admin".
Proof.
  unfold role_or. destruct claim as [r|]; [|split; discriminate].
  destruct (String.eqb_spec r "") as [->|Hne]; [split; discriminate|].
  rewrite String.eqb_eq. split; congruence.
Qed.

(** X11: outside development mode, an admin-only route runs its controller
    exactly when the [role] claim of the verified token is [admin]; for
    every other claim, and for a token without claim, it answers 403 and
    leaves the database as it was. *)
Theorem admin_route_by_claim
    (env : Env) (p : Provider) (ctl : Handler) (db : Db) (req : Request)
    (h token : string) (d : DecodedToken) :
  NODE_ENV env ≠ Some "development" →
  authorization req = Some h →
  startsWith h "Bearer " = true →
  bearer_token h = Some token →
  p token = inr d →
  route [verifyAuth env p; verifyAdmin] ctl db req =
    if bool_decide (d_role d = Some "admin") then
      ctl db (set_user req {| uid := d_uid d; email := d_email d; role := Some "admin" |})
    else (db, deny 403 "Access denied. Admin privileges required.").
Proof.
  intros Hm Hh Hs Ht Hp.
  assert (verifyAuth env p req =
          Next (set_user req {| uid := d_uid d; email := d_email d;
                                role := Some (role_or (d_role d) "user") |})) as Hv.
  { change (verifyAuth env p req) with (run VerifyAuth env p req).
    rewrite (run_with_token VerifyAuth env p req h token Hh Hs Ht).
    cbn [bypass default_role]. rewrite dev_bypass_off by assumption.
    rewrite Hp. reflexivity. }
  cbn [route]. rewrite Hv. unfold verifyAdmin, not_admin. cbn [user set_user role].
  destruct (decide (d_role d = Some "admin")) as [E|E].
  - rewrite bool_decide_eq_true_2 by exact E. rewrite E. reflexivity.
  - rewrite bool_decide_eq_false_2 by exact E.
    destruct (String.eqb (role_or (d_role d) "user") "admin") eqn:Heq;
      [apply role_or_user_admin in Heq; contradiction|reflexivity].
Qed.

Lemma admin_route_by_claim_witness :
  route [verifyAuth Samples.production Samples.provider; verifyAdmin]
    (ResidentCrud.deleteResident Samples.production) Samples.db0
    (Samples.with_header (Some "Bearer tok-u9")) =
  (Samples.db0, deny 403 "Access denied. Admin privileges required.").
Proof.
  apply (admin_route_by_claim Samples.production Samples.provider
           (ResidentCrud.deleteResident Samples.production) Samples.db0
           (Samples.with_header (Some "Bearer tok-u9"))
           "Bearer tok-u9" "tok-u9"
           {| d_uid := "u9"; d_email := None; d_role := Some "super_admin" |}).
  - discriminate.
  - reflexivity.
  - reflexivity.
  - reflexivity.
  - reflexivity.
Defined.

End RoutesMore.

(* ===================================================================== *)
(** ** The mock identity provider *)
(* ===================================================================== *)

Section MockMore.

Import Auth Routes Props More MockFirebase.

Local Open Scope list_scope.

Lemma find_matches (token : string) (us : list MockUser) :
  (∃ u, find (matches token) us = Some u) ↔
  ∃ u, u ∈ us ∧ (m_uid u = token ∨ m_customToken u = token).
Proof.
  induction us as [|x us IH]; simpl.
  - split; [intros [u Hu]; discriminate Hu | intros (u & Hu & _); inversion Hu].
  - destruct (matches token x) eqn:Hx.
    + split; [|eauto]. intros _. exists x. split; [apply list_elem_of_here|].
      unfold matches in Hx. apply orb_true_iff in Hx as [Hx | Hx];
        apply String.eqb_eq in Hx; auto.
    + rewrite IH. split.
      * intros (u & Hu & Hm). exists u. split; [apply list_elem_of_further, Hu|exact Hm].
      * intros (u & Hu & Hm). apply elem_of_cons in Hu as [-> | Hu]; [|eauto].
        unfold matches in Hx. apply orb_false_iff in Hx as [H1 H2].
        apply String.eqb_neq in H1, H2. destruct Hm; contradiction.
Qed.

(** X12: the mock provider accepts a token exactly when it equals the uid
    or the custom token of one of its users, so a user's bare uid works as
    a bearer token; the token it decodes never carries a [role] claim. *)
Theorem mock_accepts_uid_as_token (us : list MockUser) (token : string) :
  ((∃ d, verifyIdToken us token = inr d) ↔
   ∃ u, u ∈ us ∧ (m_uid u = token ∨ m_customToken u = token)) ∧
  (∀ d, verifyIdToken us token = inr d → d_role d = None).
Proof.
  split.
  - rewrite <- find_matches. unfold verifyIdToken.
    destruct (find (matches token) us) as [u|]; split.
    + intros _. eauto.
    + intros _. eauto.
    + intros [d Hd]. discriminate Hd.
    + intros [u Hu]. discriminate Hu.
  - unfold verifyIdToken. intros d.
    destruct (find (matches token) us) as [u|]; [|discriminate].
    intros [= <-]. reflexivity.
Qed.

(** X13: with the mock provider and outside development mode, no request
    gets past an admin-only route: whatever the header, also with the
    token of the mock user whose stored role is [admin], the answer is 401
    or 403, the controller does not run and the database is as it was. *)
Theorem mock_admin_routes_closed
    (env : Env) (us : list MockUser) (ctl : Handler) (db : Db) (req : Request) :
  NODE_ENV env ≠ Some "development" →
  ∃ res,
    route [verifyAuth env (verifyIdToken us); verifyAdmin] ctl db req = (db, res) ∧
    (status res = 401 ∨ status res = 403).
Proof.
  intros Hm. cbn [route]. unfold verifyAuth.
  destruct (no_bearer _); [eexists; split; [reflexivity|left; reflexivity]|].
  destruct (bearer_token _) as [token|];
    [|eexists; split; [reflexivity|right; reflexivity]].
  rewrite dev_bypass_off by assumption.
  unfold verifyIdToken.
  destruct (find (matches token) us) as [u|];
    eexists; (split; [reflexivity|right; reflexivity]).
Qed.

Lemma mock_admin_routes_closed_witness :
  ∃ res,
    route [verifyAuth Samples.production (verifyIdToken mockUsers); verifyAdmin]
      (ResidentCrud.deleteResident Samples.production) Samples.db0
      (Samples.with_header (Some "Bearer admin-token")) = (Samples.db0, res) ∧
    (status res = 401 ∨ status res = 403).
Proof.
  apply (mock_admin_routes_closed Samples.production mockUsers). discriminate.
Defined.

End MockMore.

(* ===================================================================== *)
(** ** Further properties of the resident controller *)
(* ===================================================================== *)

Section ResidentsMore.

Import Auth Routes Props More Router ResponseHandler JsonObject
       ResidentController ResidentCrud.

Local Open Scope list_scope.

Lemma fields_JMap (m : gmap string jsval) : fields (JMap m) = m.
Proof. unfold fields, JMap. apply list_to_map_to_list. Qed.

(** The payload of a success response built from an object. *)
Lemma data_fields_success (env : Env) (k : nat) (code : Z) (msg key : string)
    (x : jsval) (m : gmap string jsval) :
  data_fields (successResponse env k code msg (with_key key x m)) = m ∪ {[ key := x ]}.
Proof.
  unfold data_fields, prop, successResponse. cbn [json].
  rewrite !lookup_insert_ne by discriminate. rewrite lookup_insert_eq.
  cbn [default]. unfold with_key. cbn [default_null JMap]. apply fields_JMap.
Qed.

(** X14: for a requester who is neither admin nor the addressed resident,
    reading and updating a profile are answered 403 with a response that
    does not depend on the database: it is the same whether or not a
    record with that id exists. *)
Theorem forbidden_hides_existence
    (env : Env) (db db' : Db) (req : Request) (u : ReqUser) :
  user req = Some u →
  is_admin u = false →
  uid u ≠ params_id req →
  status (snd (getResidentById env db req)) = 403 ∧
  snd (getResidentById env db req) = snd (getResidentById env db' req) ∧
  status (snd (updateResident env db req)) = 403 ∧
  snd (updateResident env db req) = snd (updateResident env db' req).
Proof.
  intros Hu Ha Hne.
  rewrite !(updateResident_forbidden env _ req u Hu Ha Hne).
  unfold getResidentById. rewrite Hu, Ha.
  destruct (String.eqb_spec (uid u) (params_id req)); [contradiction|].
  repeat split.
Qed.

Lemma forbidden_hides_existence_witness :
  status (snd (getResidentById Samples.production Samples.db0
                 (request_as "u1" (Samples.usr "u2" "resident")))) = 403.
Proof.
  refine (proj1 (forbidden_hides_existence Samples.production Samples.db0 Samples.db_new
                   (request_as "u1" (Samples.usr "u2" "resident"))
                   (Samples.usr "u2" "resident") _ _ _)).
  - reflexivity.
  - reflexivity.
  - discriminate.
Defined.

(** X15: an admin, or the resident themselves, reading an existing record
    is answered 200 with every stored field of the record (the role among
    them) in [data], and with the record id under [id] unless the record
    stores a field of that name; nothing is written. *)
Theorem getResidentById_returns_record
    (env : Env) (db : Db) (req : Request) (u : ReqUser) (doc : gmap string jsval) :
  user req = Some u →
  is_admin u = true ∨ uid u = params_id req →
  users db !! params_id req = Some doc →
  let r := getResidentById env db req in
  fst r = db ∧ status (snd r) = 200 ∧
  data_fields (snd r) = doc ∪ {[ "id" := JStr (params_id req) ]} ∧
  (∀ k v, doc !! k = Some v → data_fields (snd r) !! k = Some v) ∧
  (doc !! "id" = None → data_fields (snd r) !! "id" = Some (JStr (params_id req))).
Proof.
  intros Hu Hwho Hdoc. cbn zeta.
  assert (getResidentById env db req =
          (db, successResponse env 0 200 "Resident retrieved successfully"
                 (with_key "id" (JStr (params_id req)) doc))) as ->.
  { unfold getResidentById. rewrite Hu.
    destruct Hwho as [Ha | Hown].
    - rewrite Ha. cbn [negb andb]. rewrite Hdoc. reflexivity.
    - rewrite Hown, String.eqb_refl, andb_false_r, Hdoc. reflexivity. }
  cbn [fst snd]. rewrite data_fields_success.
  split; [reflexivity|]. split; [reflexivity|]. split; [reflexivity|]. split.
  - intros k v Hk. apply lookup_union_Some_l, Hk.
  - intros Hnone. rewrite lookup_union_r by exact Hnone. apply lookup_singleton_eq.
Qed.

Lemma getResidentById_returns_record_witness :
  data_fields (snd (getResidentById Samples.production Samples.db0
                      (request_as "u1" (Samples.usr "u1" "resident")))) =
  Samples.resident_u1 ∪ {[ "id" := JStr "u1" ]}.
Proof.
  refine (proj1 (proj2 (proj2
            (getResidentById_returns_record Samples.production Samples.db0
               (request_as "u1" (Samples.usr "u1" "resident"))
               (Samples.usr "u1" "resident") Samples.resident_u1 _ _ _)))).
  - reflexivity.
  - right. reflexivity.
  - reflexivity.
Defined.

Lemma prop_body_role (b : gmap string jsval) (v : jsval) (k : string) :
  k ≠ "role" → prop (<["role" := v]> b) k = prop b k.
Proof. intros Hk. unfold prop. rewrite lookup_insert_ne by congruence. reflexivity. Qed.

Lemma newResident_body_role (env : Env) (b : gmap string jsval) (v : jsval) (c : string) :
  newResident env (<["role" := v]> b) c = newResident env b c.
Proof. unfold newResident. rewrite !prop_body_role by discriminate. reflexivity. Qed.

Lemma newResident_role (env : Env) (b : gmap string jsval) (c : string) :
  newResident env b c !! "role" = Some (JStr "resident").
Proof.
  unfold newResident. rewrite !lookup_insert_ne by discriminate. apply lookup_insert_eq.
Qed.

Lemma newResident_createdBy (env : Env) (b : gmap string jsval) (c : string) :
  newResident env b c !! "createdBy" = Some (JStr c).
Proof.
  unfold newResident. rewrite !lookup_insert_ne by discriminate. apply lookup_insert_eq.
Qed.

Lemma newResident_email (env : Env) (b : gmap string jsval) (c : string) :
  newResident env b c !! "email" = Some (prop b "email").
Proof. unfold newResident. apply lookup_insert_eq. Qed.

(** X16: [createResident] either answers 400 or 500 and writes nothing,
    or answers 201 and stores exactly one new record, under the new id,
    whose role is [resident] and whose [createdBy] is the requester; a
    [role] field in the body changes neither the record nor the answer. *)
Theorem createResident_stores_resident
    (env : Env) (veq : jsval -> jsval -> bool) (newId : string)
    (db : Db) (req : Request) (v : jsval) :
  let r := createResident env veq newId db req in
  ((fst r = db ∧ (status (snd r) = 400 ∨ status (snd r) = 500)) ∨
   (∃ u doc, user req = Some u ∧ status (snd r) = 201 ∧
      users (fst r) = <[newId := doc]> (users db) ∧ events (fst r) = events db ∧
      doc !! "role" = Some (JStr "resident") ∧
      doc !! "createdBy" = Some (JStr (uid u)) ∧
      doc !! "email" = Some (prop (body req) "email"))) ∧
  createResident env veq newId db (with_body_field "role" v req) = r.
Proof.
  cbn zeta. split.
  - unfold createResident.
    destruct (_ || _); [left; split; [reflexivity|left; reflexivity]|].
    destruct (email_taken _ _ _); [left; split; [reflexivity|left; reflexivity]|].
    destruct (user req) as [u|]; [|left; split; [reflexivity|right; reflexivity]].
    right. exists u, (newResident env (body req) (uid u)). cbn [fst snd users events].
    split; [reflexivity|]. split; [reflexivity|]. split; [reflexivity|].
    split; [reflexivity|]. split; [apply newResident_role|].
    split; [apply newResident_createdBy|apply newResident_email].
  - unfold createResident, with_body_field. cbn [body user].
    rewrite !prop_body_role by discriminate.
    destruct (user req); [|reflexivity].
    rewrite newResident_body_role. reflexivity.
Qed.

Lemma email_taken_insert (veq : jsval -> jsval -> bool) (db : Db) (id : string)
    (doc : gmap string jsval) (e : jsval) :
  doc !! "email" = Some e → veq e e = true →
  email_taken veq {| users := <[id := doc]> (users db); events := events db |} e = true.
Proof.
  intros Hdoc Hveq. unfold email_taken. apply existsb_exists.
  exists (id, doc). split.
  - apply list_elem_of_In, elem_of_map_to_list. cbn [users]. apply lookup_insert_eq.
  - cbn [snd]. rewrite Hdoc. exact Hveq.
Qed.

Lemma createResident_created (env : Env) (veq : jsval -> jsval -> bool) (newId : string)
    (db : Db) (req : Request) :
  status (snd (createResident env veq newId db req)) = 201 →
  ∃ u, truthy (prop (body req) "email") = true ∧
    createResident env veq newId db req =
      ({| users := <[newId := newResident env (body req) (uid u)]> (users db);
          events := events db |},
       successResponse env 2 201 "Resident created successfully"
         (with_key "id" (JStr newId) (newResident env (body req) (uid u)))).
Proof.
  unfold createResident.
  destruct (truthy (prop (body req) "email")); [|discriminate].
  cbn [negb orb].
  destruct (_ || _); [discriminate|].
  destruct (email_taken _ _ _); [discriminate|].
  destruct (user req) as [u|]; [|discriminate].
  intros _. exists u. split; reflexivity.
Qed.

(** X17: once a resident has been created, a second creation with the
    same email (an email that Firestore's equality finds equal to itself)
    is answered 400 and writes nothing, whatever id it would have got. *)
Theorem createResident_rejects_same_email
    (e1 e2 : Env) (veq : jsval -> jsval -> bool) (id1 id2 : string)
    (db : Db) (req req' : Request) :
  status (snd (createResident e1 veq id1 db req)) = 201 →
  veq (prop (body req) "email") (prop (body req) "email") = true →
  prop (body req') "email" = prop (body req) "email" →
  truthy (prop (body req') "name") = true →
  truthy (prop (body req') "flatNumber") = true →
  let db1 := fst (createResident e1 veq id1 db req) in
  createResident e2 veq id2 db1 req' =
    (db1, errorResponse e2 0 400 "Resident with this email already exists" JNull).
Proof.
  intros Hst Hveq Hemail Hname Hflat. cbn zeta.
  destruct (createResident_created e1 veq id1 db req Hst) as (u & Htr & ->).
  cbn [fst].
  unfold createResident. rewrite Hemail, Htr, Hname, Hflat. cbn [negb orb].
  rewrite email_taken_insert; [reflexivity|apply newResident_email|exact Hveq].
Qed.

Lemma createResident_rejects_same_email_witness :
  createResident Samples.production string_values_equal "r2"
    (fst (createResident Samples.production string_values_equal "r1" Samples.db0
            new_resident_request))
    new_resident_request =
  (fst (createResident Samples.production string_values_equal "r1" Samples.db0
          new_resident_request),
   errorResponse Samples.production 0 400 "Resident with this email already exists" JNull).
Proof.
  apply (createResident_rejects_same_email Samples.production Samples.production
           string_values_equal "r1" "r2" Samples.db0
           new_resident_request new_resident_request);
    reflexivity.
Defined.

End ResidentsMore.

(* ===================================================================== *)
(** ** Further properties of the auth controller and its routes *)
(* ===================================================================== *)

Section AuthControllerMore.

Import Auth Routes Props More Router ResponseHandler JsonObject
       ResidentController ResidentCrud AuthController.

Local Open Scope list_scope.

Lemma verifyAuth_decodes (env : Env) (p : Provider) (req : Request)
    (h token : string) (d : DecodedToken) :
  NODE_ENV env ≠ Some "development" →
  authorization req = Some h →
  startsWith h "Bearer " = true →
  bearer_token h = Some token →
  p token = inr d →
  verifyAuth env p req =
    Next (set_user req {| uid := d_uid d; email := d_email d;
                          role := Some (role_or (d_role d) "user") |}).
Proof.
  intros Hm Hh Hs Ht Hp.
  change (verifyAuth env p req) with (run VerifyAuth env p req).
  rewrite (run_with_token VerifyAuth env p req h token Hh Hs Ht).
  cbn [bypass default_role]. rewrite dev_bypass_off by assumption.
  rewrite Hp. reflexivity.
Qed.

Lemma data_fields_JMap (env : Env) (k : nat) (code : Z) (msg : string)
    (m : gmap string jsval) :
  data_fields (successResponse env k code msg (JMap m)) = m.
Proof.
  unfold data_fields, prop, successResponse. cbn [json].
  rewrite !lookup_insert_ne by discriminate. rewrite lookup_insert_eq.
  cbn [default default_null JMap]. apply fields_JMap.
Qed.

(** X18: deleting a resident's record does not shut the resident out: the
    record is gone and [GET /api/auth/me] answers 404, but the same bearer
    token still passes [verifyAuth], and an RSVP made with it is accepted. *)
Theorem deleted_resident_still_authenticated
    (e0 env : Env) (p : Provider) (db : Db) (rd req : Request)
    (h token : string) (d : DecodedToken) (doc : gmap string jsval) (ev : Event) :
  NODE_ENV env ≠ Some "development" →
  authorization req = Some h →
  startsWith h "Bearer " = true →
  bearer_token h = Some token →
  p token = inr d →
  users db !! d_uid d = Some doc →
  params_id rd = d_uid d →
  events db !! params_id req = Some ev →
  d_uid d ∉ default [] (attendees ev) →
  EventController.max_reached ev (default [] (attendees ev)) = false →
  let db' := fst (deleteResident e0 db rd) in
  users db' !! d_uid d = None ∧
  status (snd (get_me env p db' req)) = 404 ∧
  status (snd (post_event_rsvp env p db' req)) = 200 ∧
  attendees_of (fst (post_event_rsvp env p db' req)) (params_id req) =
    Some (default [] (attendees ev) ++ [d_uid d]).
Proof.
  intros Hm Hh Hs Ht Hp Hdoc Hrd Hev Hin Hmax. cbn zeta.
  assert (deleteResident e0 db rd =
          ({| users := delete (d_uid d) (users db); events := events db |},
           successResponse e0 0 200 "Resident deleted successfully" JNull)) as ->
    by (unfold deleteResident; rewrite Hrd, Hdoc; reflexivity).
  cbn [fst].
  set (db' := {| users := delete (d_uid d) (users db); events := events db |}).
  assert (users db' !! d_uid d = None) as Hgone by apply lookup_delete_eq.
  pose proof (verifyAuth_decodes env p req h token d Hm Hh Hs Ht Hp) as Hv.
  set (u := {| uid := d_uid d; email := d_email d;
               role := Some (role_or (d_role d) "user") |}) in *.
  split; [exact Hgone|]. split.
  - unfold get_me. cbn [route]. rewrite Hv.
    unfold getCurrentUser. cbn [user set_user uid u]. rewrite Hgone. reflexivity.
  - unfold post_event_rsvp. cbn [route]. rewrite Hv.
    destruct (rsvp_success env db' (set_user req u) u ev eq_refl Hev Hin Hmax)
      as (db2 & Hr & _ & He2).
    rewrite Hr. cbn [fst snd]. split; [reflexivity|].
    unfold attendees_of. rewrite He2. cbn [params_id set_user].
    rewrite lookup_insert_eq. reflexivity.
Qed.

Lemma deleted_resident_still_authenticated_witness :
  status (snd (post_event_rsvp Samples.production resident_provider
                 (fst (deleteResident Samples.production db_u7
                         (request_as "u7" (Samples.usr "u1" "admin"))))
                 {| authorization := Some "Bearer any"; params_id := "e2";
                    body := ∅; user := None |})) = 200.
Proof.
  refine (proj1 (proj2 (proj2
    (deleted_resident_still_authenticated Samples.production Samples.production
       resident_provider db_u7 (request_as "u7" (Samples.usr "u1" "admin"))
       {| authorization := Some "Bearer any"; params_id := "e2";
          body := ∅; user := None |}
       "Bearer any" "any" {| d_uid := "u7"; d_email := None; d_role := None |}
       Samples.resident_u1 open_house _ _ _ _ _ _ _ _ _ _)))).
  - discriminate.
  - reflexivity.
  - reflexivity.
  - reflexivity.
  - reflexivity.
  - reflexivity.
  - reflexivity.
  - reflexivity.
  - apply (bool_decide_unpack _). vm_compute. exact I.
  - reflexivity.
Defined.

(** X19: outside development mode, [GET /api/auth/me] answers a verified
    token whose identity has a record with status 200 and the record's
    fields; the role it reports is the one stored in the record, whatever
    [role] claim the token carries, and nothing is written. *)
Theorem get_me_reports_stored_role
    (env : Env) (p : Provider) (db : Db) (req : Request)
    (h token : string) (d : DecodedToken) (doc : gmap string jsval) :
  NODE_ENV env ≠ Some "development" →
  authorization req = Some h →
  startsWith h "Bearer " = true →
  bearer_token h = Some token →
  p token = inr d →
  users db !! d_uid d = Some doc →
  let r := get_me env p db req in
  fst r = db ∧ status (snd r) = 200 ∧
  data_fields (snd r) = doc ∪ {[ "uid" := JStr (d_uid d) ]} ∧
  data_fields (snd r) !! "role" = doc !! "role".
Proof.
  intros Hm Hh Hs Ht Hp Hdoc. cbn zeta.
  unfold get_me. cbn [route].
  rewrite (verifyAuth_decodes env p req h token d Hm Hh Hs Ht Hp).
  unfold getCurrentUser. cbn [user set_user uid]. rewrite Hdoc. cbn [fst snd].
  rewrite data_fields_success.
  split; [reflexivity|]. split; [reflexivity|]. split; [reflexivity|].
  destruct (doc !! "role") as [v|] eqn:Hr.
  - apply lookup_union_Some_l, Hr.
  - rewrite lookup_union_r by exact Hr. apply lookup_singleton_ne. discriminate.
Qed.

Lemma get_me_reports_stored_role_witness :
  data_fields (snd (get_me Samples.production Samples.provider Samples.db0
                      (Samples.with_header (Some "Bearer tok-u1")))) !! "role" =
  Samples.resident_u1 !! "role".
Proof.
  refine (proj2 (proj2 (proj2
    (get_me_reports_stored_role Samples.production Samples.provider Samples.db0
       (Samples.with_header (Some "Bearer tok-u1")) "Bearer tok-u1" "tok-u1"
       {| d_uid := "u1"; d_email := Some "u1@example.com"; d_role := Some "admin" |}
       Samples.resident_u1 _ _ _ _ _ _)))).
  - discriminate.
  - reflexivity.
  - reflexivity.
  - reflexivity.
  - reflexivity.
  - reflexivity.
Defined.

End AuthControllerMore.

Section ProfileMore.

Import Auth Routes Props More Router ResponseHandler JsonObject
       ResidentController AuthController.

Local Open Scope list_scope.

(** The fields [updateUserProfile] may write. *)
Lemma profile_updateData_outside (env : Env) (b : gmap string jsval) (k : string) :
  k ∉ ["updatedAt"; "displayName"; "phoneNumber"; "address"] →
  profile_updateData env b !! k = None.
Proof.
  unfold profile_updateData. intros Hk.
  repeat (apply not_elem_of_cons in Hk as [? Hk]).
  repeat (rewrite set_if_lookup_ne by congruence).
  apply lookup_singleton_ne. congruence.
Qed.

Lemma updateUserProfile_cases (env : Env) (upd : UpdateUser) (db : Db)
    (req : Request) (u : ReqUser) :
  user req = Some u →
  fst (fst (updateUserProfile env upd db req)) = db ∨
  ∃ doc, users db !! uid u = Some doc ∧
    fst (fst (updateUserProfile env upd db req)) =
      {| users := <[uid u := profile_updateData env (body req) ∪ doc]> (users db);
         events := events db |} ∧
    status (snd (updateUserProfile env upd db req)) = 200.
Proof.
  intros Hu. unfold updateUserProfile. rewrite Hu. cbn zeta.
  destruct (truthy (prop (body req) "displayName")
            || truthy (prop (body req) "phoneNumber"));
    [destruct (upd (uid u) (authUpdateData (body req))); [left; reflexivity|]|];
    unfold users_update;
    (destruct (users db !! uid u) as [doc|]; [|left; reflexivity]);
    right; exists doc; repeat split.
Qed.

(** X20: [PUT /api/auth/me] writes to the requester's own record only,
    whatever the path parameter; the events and all other records are
    untouched, no record is created, and within the record only
    [updatedAt], [displayName], [phoneNumber] and [address] can change, so
    a [role] sent in the body never reaches the stored role. *)
Theorem updateUserProfile_frame
    (env : Env) (upd : UpdateUser) (db : Db) (req : Request) (u : ReqUser) :
  user req = Some u →
  let db' := fst (fst (updateUserProfile env upd db req)) in
  events db' = events db ∧
  (∀ id, id ≠ uid u → users db' !! id = users db !! id) ∧
  (users db !! uid u = None → users db' !! uid u = None) ∧
  (∀ doc, users db !! uid u = Some doc →
     ∃ doc', users db' !! uid u = Some doc' ∧
       doc' !! "role" = doc !! "role" ∧
       ∀ k, k ∉ ["updatedAt"; "displayName"; "phoneNumber"; "address"] →
            doc' !! k = doc !! k).
Proof.
  intros Hu. cbn zeta.
  destruct (updateUserProfile_cases env upd db req u Hu)
    as [-> | (doc & Hdoc & -> & _)].
  - split; [reflexivity|]. split; [reflexivity|]. split; [auto|].
    intros doc Hdoc. exists doc. repeat split. exact Hdoc.
  - cbn [users events]. split; [reflexivity|].
    split; [intros id Hne; apply lookup_insert_ne; congruence|].
    split; [intros Hnone; congruence|].
    intros doc0 Hdoc0. rewrite Hdoc in Hdoc0. injection Hdoc0 as <-.
    eexists. split; [apply lookup_insert_eq|]. split.
    + apply lookup_union_r, profile_updateData_outside.
      repeat (apply not_elem_of_cons; split; [discriminate|]). apply not_elem_of_nil.
    + intros k Hk. apply lookup_union_r, profile_updateData_outside, Hk.
Qed.

Lemma updateUserProfile_frame_witness :
  events (fst (fst (updateUserProfile Samples.production update_ok Samples.db0
                      (with_body_field "role" (JStr "admin")
                         (request_as "zzz" (Samples.usr "u1" "resident")))))) =
  events Samples.db0.
Proof.
  refine (proj1 (updateUserProfile_frame Samples.production update_ok Samples.db0
                   (with_body_field "role" (JStr "admin")
                      (request_as "zzz" (Samples.usr "u1" "resident")))
                   (Samples.usr "u1" "resident") _)).
  reflexivity.
Defined.



Lemma registered_doc_role (env : Env) (b : gmap string jsval) :
  registered_doc env b !! "role" = Some (JStr "resident").
Proof.
  unfold registered_doc. rewrite !lookup_insert_ne by discriminate.
  apply lookup_insert_eq.
Qed.

Lemma registerUser_cases (env : Env) (cu : CreateUser) (stamp : string)
    (db : Db) (req : Request) :
  (fst (registerUser env cu stamp db req) = db ∧
   (status (snd (registerUser env cu stamp db req)) = 400 ∨
    status (snd (registerUser env cu stamp db req)) = 500)) ∨
  ∃ ur,
    registerUser env cu stamp db req =
      ({| users := <[ur_uid ur := registered_doc env (body req)]> (users db);
          events := events db |},
       successResponse env 2 201 "User registered successfully"
         (JMap (<["uid" := JStr (ur_uid ur)]>
               (<["email" := ur_email ur]>
               (<["displayName" := ur_displayName ur]>
               (<["token" := simulated_token env stamp]> ∅)))))).
Proof.
  unfold registerUser. cbn zeta.
  destruct (_ || _); [left; split; [reflexivity|left; reflexivity]|].
  destruct (cu _) as [e|ur].
  - destruct (String.eqb _ _); left; (split; [reflexivity|]);
      [left|right]; reflexivity.
  - right. exists ur. reflexivity.
Qed.

(** X22: [registerUser] either answers 400 or 500 and writes nothing, or
    answers 201 and stores, under the uid the provider gave, a record
    whose role is [resident], replacing whatever record was there; a
    [role] field in the body changes nothing. *)
Theorem registerUser_stores_resident
    (env : Env) (cu : CreateUser) (stamp : string) (db : Db) (req : Request)
    (v : jsval) :
  let r := registerUser env cu stamp db req in
  ((fst r = db ∧ (status (snd r) = 400 ∨ status (snd r) = 500)) ∨
   (∃ id doc, status (snd r) = 201 ∧
      users (fst r) = <[id := doc]> (users db) ∧ events (fst r) = events db ∧
      doc !! "role" = Some (JStr "resident") ∧
      data_fields (snd r) !! "uid" = Some (JStr id))) ∧
  registerUser env cu stamp db (with_body_field "role" v req) = r.
Proof.
  cbn zeta. split.
  - destruct (registerUser_cases env cu stamp db req) as [H | (ur & ->)];
      [left; exact H|].
    right. exists (ur_uid ur), (registered_doc env (body req)). cbn [fst snd users events].
    split; [reflexivity|]. split; [reflexivity|]. split; [reflexivity|].
    split; [apply registered_doc_role|].
    rewrite data_fields_JMap. apply lookup_insert_eq.
  - unfold registerUser, with_body_field, registered_doc. cbn [body].
    rewrite !prop_body_role by discriminate. reflexivity.
Qed.

Lemma startsWith_append (p r : string) : startsWith (p ++ r) p = true.
Proof.
  unfold startsWith. induction p as [|a p IH]; simpl.
  - destruct r; reflexivity.
  - destruct (ascii_dec a a) as [_|Hne]; [exact IH|contradiction].
Qed.

(** X23: in development mode the token that a successful [registerUser]
    returns, sent back as a bearer token, is accepted by [verifyAuth] as
    the mock identity with role [admin], whatever the provider, and opens
    every admin-only route. *)
Theorem registered_token_is_mock_admin
    (env : Env) (cu : CreateUser) (stamp : string) (db : Db) (req : Request) :
  NODE_ENV env = Some "development" →
  digits stamp = true →
  status (snd (registerUser env cu stamp db req)) = 201 →
  ∃ t,
    data_fields (snd (registerUser env cu stamp db req)) !! "token" = Some (JStr t) ∧
    ∀ (p : Provider) (req2 : Request),
      authorization req2 = Some ("Bearer " ++ t)%string →
      verifyAuth env p req2 = Next (set_user req2 mock_user) ∧
      ∀ (ctl : Handler) (db2 : Db),
        route [verifyAuth env p; verifyAdmin] ctl db2 req2 =
        ctl db2 (set_user req2 mock_user).
Proof.
  intros Hm Hd Hst.
  exists ("simulated_token_" ++ stamp)%string. split.
  - destruct (registerUser_cases env cu stamp db req) as [[_ [H | H]] | (ur & Hr)];
      [rewrite H in Hst; discriminate Hst | rewrite H in Hst; discriminate Hst |].
    rewrite Hr. cbn [snd]. rewrite data_fields_JMap.
    rewrite !lookup_insert_ne by discriminate. rewrite lookup_insert_eq.
    unfold simulated_token, is_development. rewrite Hm. reflexivity.
  - intros p req2 Hh.
    assert (verifyAuth env p req2 = Next (set_user req2 mock_user)) as Hv.
    { change (verifyAuth env p req2) with (run VerifyAuth env p req2).
      rewrite (run_with_token VerifyAuth env p req2
                 ("Bearer " ++ ("simulated_token_" ++ stamp))
                 ("simulated_token_" ++ stamp) Hh).
      - cbn [bypass].
        rewrite dev_bypass_on; [reflexivity|exact Hm|apply startsWith_append].
      - reflexivity.
      - rewrite bearer_token_app, no_space_split; [reflexivity|].
        simpl. apply digits_no_space, Hd. }
    split; [exact Hv|]. intros ctl db2. cbn [route]. rewrite Hv. reflexivity.
Qed.

Lemma registered_token_is_mock_admin_witness :
  ∃ t,
    data_fields (snd (registerUser Samples.development create_ok "1700000000000"
                        Samples.db0 register_request)) !! "token" = Some (JStr t) ∧
    ∀ (p : Provider) (req2 : Request),
      authorization req2 = Some ("Bearer " ++ t)%string →
      verifyAuth Samples.development p req2 = Next (set_user req2 mock_user) ∧
      ∀ (ctl : Handler) (db2 : Db),
        route [verifyAuth Samples.development p; verifyAdmin] ctl db2 req2 =
        ctl db2 (set_user req2 mock_user).
Proof.
  apply (registered_token_is_mock_admin Samples.development create_ok "1700000000000"
           Samples.db0 register_request); reflexivity.
Defined.

End ProfileMore.

(* ===================================================================== *)
(** ** Further properties of the error middleware *)
(* ===================================================================== *)

Section ErrorMiddlewareMore.

Import Props More ResponseHandler ErrorMiddleware.

(** X24: for a thrown value whose [code] is neither falsy nor a string (a
    non-zero number such as the duplicate-key code 11000, [true], an array
    or an object), [errorHandler] sends no response: its own test
    [err.code.startsWith] throws a [TypeError], so the branch written for
    the code 11000 is never reached. *)
Theorem errorHandler_throws_on_non_string_code (env : Env) (err : Err) :
  truthy_non_string (e_code err) →
  errorHandler env err = inl not_a_function_message.
Proof.
  unfold truthy_non_string, errorHandler, code_test.
  destruct (e_code err) as [| |b|n|s|l|o]; try contradiction.
  - intros ->. reflexivity.
  - intros Hn. cbn [truthy]. destruct (Z.eqb_spec n 0); [contradiction|reflexivity].
  - reflexivity.
  - reflexivity.
Qed.

Lemma errorHandler_throws_on_non_string_code_witness :
  errorHandler Samples.production duplicate_key_error = inl not_a_function_message.
Proof.
  apply (errorHandler_throws_on_non_string_code Samples.production duplicate_key_error).
  simpl. discriminate.
Defined.

Lemma after_code_test_envelope (env : Env) (err : Err) :
  error_envelope env (after_code_test env err).
Proof.
  unfold after_code_test.
  destruct (bool_decide _); [apply errorResponse_envelope|].
  destruct (e_code err) as [| |b|n|s|l|o]; try apply errorResponse_envelope.
  destruct n as [|q|q]; try apply errorResponse_envelope.
  repeat (destruct q as [q|q|]; try apply errorResponse_envelope).
Qed.

Lemma after_code_test_stack (env : Env) (err : Err) (st : option string) :
  NODE_ENV env ≠ Some "development" →
  after_code_test env (with_stack st err) = after_code_test env err.
Proof.
  intros Hm. unfold after_code_test, with_stack. cbn [e_code e_name e_message e_statusCode e_stack].
  assert (AuthController.is_development env = false) as ->.
  { unfold AuthController.is_development.
    destruct (NODE_ENV env) as [m|]; [|reflexivity].
    destruct (String.eqb_spec m "development") as [->|]; [congruence|reflexivity]. }
  reflexivity.
Qed.

(** X25: every response that [errorHandler] sends carries the error
    envelope with a timestamp, and outside development mode it does not
    depend on the stack of the thrown value. *)
Theorem errorHandler_hides_stack (env : Env) (err : Err) (st : option string) :
  NODE_ENV env ≠ Some "development" →
  errorHandler env (with_stack st err) = errorHandler env err ∧
  ∀ r, errorHandler env err = inr r → error_envelope env r.
Proof.
  intros Hm. split.
  - unfold errorHandler. cbn [with_stack e_code e_message].
    rewrite after_code_test_stack by exact Hm. reflexivity.
  - unfold errorHandler. intros r.
    destruct (code_test (e_code err)) as [|c|].
    + intros [= <-]. apply after_code_test_envelope.
    + destruct (startsWith c "auth/"); intros [= <-];
        [apply errorResponse_envelope|apply after_code_test_envelope].
    + discriminate.
Qed.

Lemma errorHandler_hides_stack_witness :
  errorHandler Samples.production
    (with_stack None (with_stack (Some "Error: boom at handler.ts:10") sample_error)) =
  errorHandler Samples.production (with_stack (Some "Error: boom at handler.ts:10") sample_error).
Proof.
  refine (proj1 (errorHandler_hides_stack Samples.production _ None _)).
  discriminate.
Defined.

End ErrorMiddlewareMore.

(* ===================================================================== *)
(** ** Further properties of the client session bridge *)
(* ===================================================================== *)

Section SessionBridgeMore.

Import Auth Routes Props More Router ResponseHandler JsonObject
       AuthController AuthContext.

Local Open Scope list_scope.

Lemma merge_role (userData : gmap string jsval) (prev : option (gmap string jsval)) :
  merge userData prev ≫= (λ m, m !! "role") =
  Some (default (JStr "resident") (userData !! "role")).
Proof.
  unfold merge. cbn [mbind option_bind].
  destruct (userData !! "role") as [v|] eqn:Hr.
  - cbn [default]. apply lookup_union_Some_l, Hr.
  - rewrite lookup_union_r by exact Hr. rewrite lookup_insert_eq.
    unfold prop. rewrite Hr. reflexivity.
Qed.

Lemma axios_me_success (env : Env) (k : nat) (msg key : string) (x : jsval)
    (m : gmap string jsval) :
  axios_me (successResponse env k 200 msg (with_key key x m)) =
  MeSuccess (m ∪ {[ key := x ]}).
Proof.
  unfold axios_me. rewrite data_fields_success.
  assert (prop (json (successResponse env k 200 msg (with_key key x m))) "success"
          = JBool true) as ->
    by (unfold prop, successResponse; cbn [json]; rewrite lookup_insert_eq; reflexivity).
  reflexivity.
Qed.

(** X26: when the profile fetched from [GET /api/auth/me] is merged, the
    role the UI sees is the one stored in the user record ([resident] if
    the record has no role field), whatever [role] claim the token carries
    and the server authorizes with; the event ends with [loading] off. *)
Theorem ui_role_is_stored_role
    (env : Env) (p : Provider) (db : Db) (req : Request)
    (h token : string) (d : DecodedToken) (doc : gmap string jsval)
    (fbu : FirebaseUser) (idToken : string) :
  NODE_ENV env ≠ Some "development" →
  authorization req = Some h →
  startsWith h "Bearer " = true →
  bearer_token h = Some token →
  p token = inr d →
  users db !! d_uid d = Some doc →
  let s := after_event initial (Some fbu) (Some idToken)
             (axios_me (snd (get_me env p db req))) in
  exposed_role s = Some (default (JStr "resident") (doc !! "role")) ∧
  loading s = false ∧
  verifyAuth env p req =
    Next (set_user req {| uid := d_uid d; email := d_email d;
                          role := Some (role_or (d_role d) "user") |}).
Proof.
  intros Hm Hh Hs Ht Hp Hdoc. cbn zeta.
  pose proof (verifyAuth_decodes env p req h token d Hm Hh Hs Ht Hp) as Hv.
  assert (snd (get_me env p db req) =
          successResponse env 0 200 "User profile retrieved successfully"
            (with_key "uid" (JStr (d_uid d)) doc)) as ->.
  { unfold get_me. cbn [route]. rewrite Hv.
    unfold getCurrentUser. cbn [user set_user uid]. rewrite Hdoc. reflexivity. }
  rewrite axios_me_success.
  split; [|split; [reflexivity|exact Hv]].
  unfold after_event, exposed_role.
  change (currentUser (run_actions initial
            (fst (onAuthStateChanged (Some fbu) (Some idToken)
                    (MeSuccess (doc ∪ {[ "uid" := JStr (d_uid d) ]}))))))
    with (merge (doc ∪ {[ "uid" := JStr (d_uid d) ]}) (Some (default_user fbu))).
  rewrite merge_role. f_equal.
  destruct (doc !! "role") as [v|] eqn:Hr.
  - rewrite (lookup_union_Some_l _ _ _ _ Hr). reflexivity.
  - rewrite lookup_union_r by exact Hr.
    rewrite lookup_singleton_ne by discriminate. reflexivity.
Qed.

Lemma ui_role_is_stored_role_witness :
  exposed_role
    (after_event initial (Some Samples.fb_user) (Some "tok-u1")
       (axios_me (snd (get_me Samples.production Samples.provider Samples.db0
                         (Samples.with_header (Some "Bearer tok-u1")))))) =
  Some (default (JStr "resident") (Samples.resident_u1 !! "role")).
Proof.
  refine (proj1
    (ui_role_is_stored_role Samples.production Samples.provider Samples.db0
       (Samples.with_header (Some "Bearer tok-u1")) "Bearer tok-u1" "tok-u1"
       {| d_uid := "u1"; d_email := Some "u1@example.com"; d_role := Some "admin" |}
       Samples.resident_u1 Samples.fb_user "tok-u1" _ _ _ _ _ _)).
  - discriminate.
  - reflexivity.
  - reflexivity.
  - reflexivity.
  - reflexivity.
  - reflexivity.
Defined.

(** X27: when the call to [/auth/me] fails or answers without success, the
    session still ends authenticated: the user built from the provider's
    profile stays exposed with the default role [resident], the token is
    kept, no sign-out is requested, and [loading] and [tokenLoading] are
    off. *)
Theorem me_failure_keeps_default_role
    (s : State) (fbu : FirebaseUser) (idToken : string) (me : MeResult) :
  me = MeRejected ∨ me = MeNoSuccess →
  let s' := after_event s (Some fbu) (Some idToken) me in
  currentUser s' = Some (default_user fbu) ∧
  exposed_role s' = Some (JStr "resident") ∧
  authToken s' = Some idToken ∧
  authorizationHeader s' = Some ("Bearer " ++ idToken)%string ∧
  loading s' = false ∧ tokenLoading s' = false ∧
  snd (onAuthStateChanged (Some fbu) (Some idToken) me) = false.
Proof.
  intros [-> | ->]; cbn zeta;
    (split; [reflexivity|]);
    (split; [unfold exposed_role, after_event; cbn; apply default_user_role|]);
    repeat split.
Qed.

Lemma me_failure_keeps_default_role_witness :
  currentUser (after_event initial (Some Samples.fb_user) (Some "tok") MeRejected) =
  Some (default_user Samples.fb_user).
Proof.
  refine (proj1 (me_failure_keeps_default_role initial Samples.fb_user "tok" MeRejected _)).
  left. reflexivity.
Defined.

(** X28: when the token cannot be refreshed on a sign-in event, nothing of
    the new session is stored: the exposed user and the stored token stay
    what they were and a sign-out is requested; once the sign-out event
    the provider then raises is handled, no user, no token and no
    Authorization header are left and [loading] is off. *)
Theorem token_failure_ends_anonymous
    (s : State) (fbu : FirebaseUser) (me me' : MeResult) (t' : option string) :
  let s1 := after_event s (Some fbu) None me in
  let s2 := after_event s1 None t' me' in
  snd (onAuthStateChanged (Some fbu) None me) = true ∧
  currentUser s1 = currentUser s ∧ authToken s1 = authToken s ∧
  authorizationHeader s1 = authorizationHeader s ∧
  currentUser s2 = None ∧ firebaseUser s2 = None ∧ authToken s2 = None ∧
  authorizationHeader s2 = None ∧ loading s2 = false.
Proof. cbn zeta. repeat split. Qed.

End SessionBridgeMore.

(* ===================================================================== *)
(** ** The stored role across the writing endpoints *)
(* ===================================================================== *)

Section StoredRole.

Import Props More ResponseHandler ResidentController ResidentCrud AuthController.

Local Open Scope list_scope.

(** X29: none of the writing endpoints [updateResident],
    [updateUserProfile], [rsvpToEvent], [cancelRsvp], [deleteEvent] and
    [createResident] changes the role of an existing user record, whoever
    calls it and whatever the body holds: the record is still there
    afterwards, with the role field it had. *)
Theorem stored_role_unchanged
    (db : Db) (w : WriteCall) (id : string) (doc : gmap string jsval) :
  users db !! id = Some doc →
  fresh_id db w →
  ∃ doc', users (write db w) !! id = Some doc' ∧ doc' !! "role" = doc !! "role".
Proof.
  intros Hdoc Hfresh.
  destruct w as [env req | env upd req | c | env req | env veq newId req]; cbn [write].
  - destruct (user req) as [u|] eqn:Hu.
    + destruct (updateResident_cases env db req u Hu) as [-> | (doc0 & Hdoc0 & _ & ->)];
        [eauto|]. cbn [fst users].
      destruct (decide (params_id req = id)) as [<-|Hne].
      * rewrite lookup_insert_eq. eexists. split; [reflexivity|].
        rewrite Hdoc in Hdoc0. injection Hdoc0 as <-.
        apply lookup_union_r, updateData_of_outside, role_not_writable.
      * rewrite lookup_insert_ne by exact Hne. eauto.
    + unfold updateResident. rewrite Hu. eauto.
  - destruct (user req) as [u|] eqn:Hu.
    + destruct (updateUserProfile_cases env upd db req u Hu)
        as [-> | (doc0 & Hdoc0 & -> & _)]; [eauto|]. cbn [users].
      destruct (decide (uid u = id)) as [<-|Hne].
      * rewrite lookup_insert_eq. eexists. split; [reflexivity|].
        rewrite Hdoc in Hdoc0. injection Hdoc0 as <-.
        apply lookup_union_r, profile_updateData_outside.
        repeat (apply not_elem_of_cons; split; [discriminate|]). apply not_elem_of_nil.
      * rewrite lookup_insert_ne by exact Hne. eauto.
    + unfold updateUserProfile. rewrite Hu. eauto.
  - destruct (call_cases db c) as [-> | (_ & _ & _ & _ & _ & -> & _)]; eauto.
  - unfold deleteEvent. destruct (events db !! params_id req); cbn [fst users]; eauto.
  - cbn [fresh_id] in Hfresh. unfold createResident.
    destruct (_ || _); [eauto|].
    destruct (email_taken _ _ _); [eauto|].
    destruct (user req) as [u|]; [|eauto]. cbn [fst users].
    rewrite lookup_insert_ne by congruence. eauto.
Qed.

Lemma stored_role_unchanged_witness :
  ∃ doc',
    users (write Samples.db0
             (WUpdateResident Samples.production
                (with_body_field "role" (JStr "admin")
                   (with_body_field "name" (JStr "U One")
                      (request_as "u1" (Samples.usr "u1" "resident")))))) !! "u1"
      = Some doc' ∧
    doc' !! "role" = Samples.resident_u1 !! "role".
Proof.
  apply (stored_role_unchanged Samples.db0 _ "u1" Samples.resident_u1).
  - reflexivity.
  - exact I.
Defined.

End StoredRole.
